(** * No Man's Sky Base Builder: a shallow embedding of the add-on's
      part builder, snapper and settings code, with the properties of its
      specification stated and proved over that embedding.

    Source files embedded here:
    - [parts.py]          (class [PartBuilder])
    - [snap.py]           (class [Snapper])
    - [__init__.py]       (class [NMSSettings])
    - [part_overrides/messagemodule.py] (class [MESSAGEMODULE])

    The host editor ([bpy], [mathutils]) and the Python built-ins are an
    interface ([Host]); the modules of the add-on that the embedded code
    calls but that are not part of the embedded files ([utils], [material],
    [presets], [power], [part]) are either modelled from the written
    specification or kept as an interface ([Collab]). *)

From Stdlib Require Import ZArith QArith DecimalString Ascii.
From stdpp Require Import gmap strings list sorting.

Set Warnings "-register-all".
#[local] Open Scope Z_scope.
#[local] Open Scope string_scope.

(** ** Python values, errors and results *)

(** Values held by JSON documents and by the custom properties of a scene
    object.  [num] is the type of floating-point numbers of the host. *)
Inductive pyval (num : Type) : Type :=
| PNone
| PBool (b : bool)
| PInt (z : Z)
| PFloat (x : num)
| PStr (s : string)
| PList (l : list (pyval num))
| PDict (d : list (string * pyval num)).

Arguments PNone {num}.
Arguments PBool {num} b.
Arguments PInt {num} z.
Arguments PFloat {num} x.
Arguments PStr {num} s.
Arguments PList {num} l.
Arguments PDict {num} d.

(** The exceptions the embedded code can raise. *)
Inductive pyerr : Type :=
| KeyError (key : string)
| IndexError
| TypeError
| ValueError
| UnboundLocalError (name : string).

Inductive result (A : Type) : Type :=
| Ok (a : A)
| Err (e : pyerr).

Arguments Ok {A} a.
Arguments Err {A} e.

#[global] Instance result_ret : MRet result := fun A a => Ok a.
#[global] Instance result_bind : MBind result :=
  fun A B f r => match r with Ok a => f a | Err e => Err e end.
#[global] Instance result_fmap : FMap result :=
  fun A B f r => match r with Ok a => Ok (f a) | Err e => Err e end.

Definition is_Ok {A} (r : result A) : bool :=
  match r with Ok _ => true | Err _ => false end.

(** [for x in l: acc = f(acc, x)] with exceptions. *)
Fixpoint foldM {A S} (f : S -> A -> result S) (l : list A) (s : S) : result S :=
  match l with
  | [] => Ok s
  | x :: l' => s' ← f s x; foldM f l' s'
  end.

(** [[f(x) for x in l]] with exceptions. *)
Fixpoint mapM {A B} (f : A -> result B) (l : list A) : result (list B) :=
  match l with
  | [] => Ok []
  | x :: l' => y ← f x; ys ← mapM f l'; Ok (y :: ys)
  end.

(** [[x for x in l if p(x)]] where the test itself can raise. *)
Fixpoint filterM {A} (p : A -> result bool) (l : list A) : result (list A) :=
  match l with
  | [] => Ok []
  | x :: l' => b ← p x; r ← filterM p l'; Ok (if (b : bool) then x :: r else r)
  end.

(** ** Insertion-ordered dictionaries with string keys *)

Section Dict.
Context {V : Type}.

Fixpoint dict_get (d : list (string * V)) (k : string) : option V :=
  match d with
  | [] => None
  | (k', v) :: d' => if String.eqb k' k then Some v else dict_get d' k
  end.

(** [d[k] = v]: replaces in place, or appends a new key. *)
Fixpoint dict_set (d : list (string * V)) (k : string) (v : V) : list (string * V) :=
  match d with
  | [] => [(k, v)]
  | (k', v') :: d' =>
      if String.eqb k' k then (k', v) :: d' else (k', v') :: dict_set d' k v
  end.

Definition dict_has (d : list (string * V)) (k : string) : bool :=
  match dict_get d k with Some _ => true | None => false end.

Definition dict_get_default (d : list (string * V)) (k : string) (dflt : V) : V :=
  match dict_get d k with Some v => v | None => dflt end.

Definition dict_getitem (d : list (string * V)) (k : string) : result V :=
  match dict_get d k with Some v => Ok v | None => Err (KeyError k) end.
End Dict.

(** ** Text helpers: [str.upper], [str.strip], [str.split(",")], [int(str)]

    A text is the sequence of its bytes.  [str.upper] and [int] are given
    here on ASCII text; [int] on other text is left to the host. *)

Definition ascii_upper (c : ascii) : ascii :=
  let n := nat_of_ascii c in
  if ((97 <=? n) && (n <=? 122))%nat then ascii_of_nat (n - 32) else c.

Fixpoint str_upper (s : string) : string :=
  match s with
  | EmptyString => EmptyString
  | String c s' => String (ascii_upper c) (str_upper s')
  end.

(** White space in the ASCII range, as [str.strip] sees it. *)
Definition is_space (c : ascii) : bool :=
  let n := nat_of_ascii c in
  ((9 <=? n) && (n <=? 13) || (28 <=? n) && (n <=? 32))%nat.

Fixpoint lstrip (s : string) : string :=
  match s with
  | EmptyString => EmptyString
  | String c s' => if is_space c then lstrip s' else s
  end.

Fixpoint rstrip (s : string) : string :=
  match s with
  | EmptyString => EmptyString
  | String c s' =>
      match rstrip s' with
      | EmptyString => if is_space c then EmptyString else String c EmptyString
      | r => String c r
      end
  end.

Definition strip (s : string) : string := rstrip (lstrip s).

(** [s.split(",")]: always at least one piece. *)
Fixpoint split_comma (s : string) : list string :=
  match s with
  | EmptyString => [EmptyString]
  | String c s' =>
      if Ascii.eqb c ","%char then EmptyString :: split_comma s'
      else match split_comma s' with
           | [] => [String c EmptyString]
           | p :: ps => String c p :: ps
           end
  end.

Definition digit_val (c : ascii) : option Z :=
  let n := nat_of_ascii c in
  if ((48 <=? n) && (n <=? 57))%nat then Some (Z.of_nat (n - 48)) else None.

(** Decimal digits with single underscores allowed between two digits. *)
Fixpoint digits_acc (s : string) (acc : Z) (after_digit : bool) : option Z :=
  match s with
  | EmptyString => if after_digit then Some acc else None
  | String c s' =>
      match digit_val c with
      | Some d => digits_acc s' (10 * acc + d) true
      | None =>
          if Ascii.eqb c "_"%char && after_digit then digits_acc s' acc false
          else None
      end
  end.

(** White space as the parser of [int] sees it on ASCII text: tab to
    carriage return, and the space.  The separators 28 to 31, which
    [str.strip] removes, make [int] raise. *)
Definition is_c_space (c : ascii) : bool :=
  let n := nat_of_ascii c in
  ((9 <=? n) && (n <=? 13) || (n =? 32))%nat.

Fixpoint lstrip_c (s : string) : string :=
  match s with
  | EmptyString => EmptyString
  | String c s' => if is_c_space c then lstrip_c s' else s
  end.

Fixpoint rstrip_c (s : string) : string :=
  match s with
  | EmptyString => EmptyString
  | String c s' =>
      match rstrip_c s' with
      | EmptyString => if is_c_space c then EmptyString else String c EmptyString
      | r => String c r
      end
  end.

(** [int(s)] for an ASCII text [s], base ten; [None] stands for the
    [ValueError] the built-in raises. *)
Definition int_of_ascii (s : string) : option Z :=
  match rstrip_c (lstrip_c s) with
  | String "-" s' => Z.opp <$> digits_acc s' 0 false
  | String "+" s' => digits_acc s' 0 false
  | s' => digits_acc s' 0 false
  end.

(** Every byte of the text is below 128. *)
Fixpoint is_ascii_text (s : string) : bool :=
  match s with
  | EmptyString => true
  | String c s' => (nat_of_ascii c <? 128)%nat && is_ascii_text s'
  end.

Definition str_of_int (z : Z) : string := NilZero.string_of_int (Z.to_int z).

(** ** The host: Python floats, [math], [mathutils], [os.path], the OBJ importer *)

Class Host : Type := {
  (** Python [float]. *)
  num : Type;
  float_of_Z : Z -> num;
  (** [int(x)] on a float; [None] for the values on which it raises. *)
  float_to_int : num -> option Z;
  (** [x == 0.0], which decides the truth value of a float. *)
  float_is_zero : num -> bool;
  (** [int(s)] on a text that is not ASCII (digits and spaces of other
      scripts); [None] where it raises. *)
  int_of_unicode : string -> option Z;
  (** [math.radians]. *)
  radians : num -> num;
  (** [mathutils.Matrix] and the operations the add-on calls. *)
  Matrix : Type;
  Matrix_of_rows : list (list num) -> Matrix;
  Matrix_Identity : Matrix;
  Matrix_Rotation : num -> nat -> string -> Matrix;
  Matrix_Translation : num * num * num -> Matrix;
  mat_mul : Matrix -> Matrix -> Matrix;
  (** [m.invert()]; [None] for the [ValueError] of a singular matrix. *)
  mat_invert : Matrix -> option Matrix;
  (** [m.decompose()[0]]. *)
  decompose_loc : Matrix -> num * num * num;
  (** [str(v)] on floats, lists and dictionaries. *)
  py_repr : pyval num -> string;
  (** [os.path.isfile]. *)
  isfile : string -> bool;
  (** [os.path.join] of two components. *)
  path_join : string -> string -> string;
  (** [bpy.ops.import_scene.obj]: the names of the objects it creates. *)
  import_obj : string -> list string;
  (** The name an object gets when the script assigns it the name [n]
      while the other objects bear [names]: the host keeps names distinct
      and numbers a name that is taken. *)
  unique_name : list string -> string -> string;
  unique_name_free :
    forall (names : list string) (n : string), n ∉ names -> unique_name names n = n
}.

(** Values, dictionaries and vectors over the floats of the host. *)
Abbreviation value := (pyval num).
Abbreviation pydict := (list (string * pyval num)).
Abbreviation vec3 := (num * num * num)%type.

Section Values.
Context `{Host}.

(** [str(v)]. *)
Definition py_str (v : value) : string :=
  match v with
  | PStr s => s
  | PInt z => str_of_int z
  | PBool true => "True"
  | PBool false => "False"
  | PNone => "None"
  | _ => py_repr v
  end.

(** [int(s)] for a text [s], base ten; [None] stands for the
    [ValueError] the built-in raises. *)
Definition int_of_str (s : string) : option Z :=
  if is_ascii_text s then int_of_ascii s else int_of_unicode s.

(** [int(v)]. *)
Definition py_int (v : value) : result Z :=
  match v with
  | PInt z => Ok z
  | PBool b => Ok (if b then 1 else 0)
  | PFloat x => match float_to_int x with Some z => Ok z | None => Err ValueError end
  | PStr s => match int_of_str s with Some z => Ok z | None => Err ValueError end
  | _ => Err TypeError
  end.

(** Assignment to a [FloatProperty]. *)
Definition py_float (v : value) : result num :=
  match v with
  | PFloat x => Ok x
  | PInt z => Ok (float_of_Z z)
  | PBool b => Ok (float_of_Z (if b then 1 else 0))
  | _ => Err TypeError
  end.

(** [v[i]] on a list. *)
Definition py_index (v : value) (i : nat) : result value :=
  match v with
  | PList l => match l !! i with Some x => Ok x | None => Err IndexError end
  | _ => Err TypeError
  end.

(** [v[k]] on a dictionary. *)
Definition py_getitem (v : value) (k : string) : result value :=
  match v with
  | PDict d => dict_getitem d k
  | _ => Err TypeError
  end.

(** Truth value of [v] in a condition. *)
Definition py_truthy (v : value) : bool :=
  match v with
  | PNone => false
  | PBool b => b
  | PInt z => negb (Z.eqb z 0)
  | PFloat x => negb (float_is_zero x)
  | PStr s => negb (String.eqb s "")
  | PList l => match l with [] => false | _ => true end
  | PDict d => match d with [] => false | _ => true end
  end.

Definition vec_list (v : vec3) : value :=
  let '(x, y, z) := v in PList [PFloat x; PFloat y; PFloat z].
End Values.

(** ** Scene objects *)

Section Scene.
Context `{Host}.

(** A scene object: the attributes the add-on reads or writes.  [tags]
    are the custom properties ([ob["key"]]); [lamp] is the light data of
    a lamp object: its type and the attributes set on it. *)
Record Obj : Type := mkObj {
  name : string;
  tags : gmap string value;
  matrix_world : Matrix;
  lock_scale : bool * bool * bool;
  lock_location : bool * bool * bool;
  lock_rotation : bool * bool * bool;
  select : bool;
  hide : bool;
  hide_viewport : bool;
  hide_select : bool;
  parent : option string;
  material : option (value * option string);
  lamp : option (string * pydict)
}.

Definition set_name (o : Obj) (n : string) : Obj :=
  mkObj n (tags o) (matrix_world o) (lock_scale o) (lock_location o)
    (lock_rotation o) (select o) (hide o) (hide_viewport o) (hide_select o)
    (parent o) (material o) (lamp o).
Definition set_tags (o : Obj) (t : gmap string value) : Obj :=
  mkObj (name o) t (matrix_world o) (lock_scale o) (lock_location o)
    (lock_rotation o) (select o) (hide o) (hide_viewport o) (hide_select o)
    (parent o) (material o) (lamp o).
Definition set_matrix_world (o : Obj) (m : Matrix) : Obj :=
  mkObj (name o) (tags o) m (lock_scale o) (lock_location o)
    (lock_rotation o) (select o) (hide o) (hide_viewport o) (hide_select o)
    (parent o) (material o) (lamp o).
Definition set_lock_scale (o : Obj) (l : bool * bool * bool) : Obj :=
  mkObj (name o) (tags o) (matrix_world o) l (lock_location o)
    (lock_rotation o) (select o) (hide o) (hide_viewport o) (hide_select o)
    (parent o) (material o) (lamp o).
Definition set_lock_location (o : Obj) (l : bool * bool * bool) : Obj :=
  mkObj (name o) (tags o) (matrix_world o) (lock_scale o) l
    (lock_rotation o) (select o) (hide o) (hide_viewport o) (hide_select o)
    (parent o) (material o) (lamp o).
Definition set_lock_rotation (o : Obj) (l : bool * bool * bool) : Obj :=
  mkObj (name o) (tags o) (matrix_world o) (lock_scale o) (lock_location o)
    l (select o) (hide o) (hide_viewport o) (hide_select o)
    (parent o) (material o) (lamp o).
Definition set_select (o : Obj) (b : bool) : Obj :=
  mkObj (name o) (tags o) (matrix_world o) (lock_scale o) (lock_location o)
    (lock_rotation o) b (hide o) (hide_viewport o) (hide_select o)
    (parent o) (material o) (lamp o).
Definition set_hide (o : Obj) (b : bool) : Obj :=
  mkObj (name o) (tags o) (matrix_world o) (lock_scale o) (lock_location o)
    (lock_rotation o) (select o) b (hide_viewport o) (hide_select o)
    (parent o) (material o) (lamp o).
Definition set_hide_viewport (o : Obj) (b : bool) : Obj :=
  mkObj (name o) (tags o) (matrix_world o) (lock_scale o) (lock_location o)
    (lock_rotation o) (select o) (hide o) b (hide_select o)
    (parent o) (material o) (lamp o).
Definition set_hide_select (o : Obj) (b : bool) : Obj :=
  mkObj (name o) (tags o) (matrix_world o) (lock_scale o) (lock_location o)
    (lock_rotation o) (select o) (hide o) (hide_viewport o) b
    (parent o) (material o) (lamp o).
Definition set_parent (o : Obj) (p : option string) : Obj :=
  mkObj (name o) (tags o) (matrix_world o) (lock_scale o) (lock_location o)
    (lock_rotation o) (select o) (hide o) (hide_viewport o) (hide_select o)
    p (material o) (lamp o).
Definition set_material (o : Obj) (m : option (value * option string)) : Obj :=
  mkObj (name o) (tags o) (matrix_world o) (lock_scale o) (lock_location o)
    (lock_rotation o) (select o) (hide o) (hide_viewport o) (hide_select o)
    (parent o) m (lamp o).
Definition set_lamp (o : Obj) (l : option (string * pydict)) : Obj :=
  mkObj (name o) (tags o) (matrix_world o) (lock_scale o) (lock_location o)
    (lock_rotation o) (select o) (hide o) (hide_viewport o) (hide_select o)
    (parent o) (material o) l.

(** [ob[k] = v], [k in ob], [ob[k]]. *)
Definition set_tag (o : Obj) (k : string) (v : value) : Obj :=
  set_tags o (<[k := v]> (tags o)).
Definition has_tag (o : Obj) (k : string) : bool :=
  bool_decide (k ∈ dom (tags o)).
Definition get_tag (o : Obj) (k : string) : result value :=
  match tags o !! k with Some v => Ok v | None => Err (KeyError k) end.

(** [bpy.data.objects]. *)
#[local] Abbreviation scene := (list Obj).

(** An object as an operator of the host creates it: no custom property,
    at the origin, selected. *)
Definition fresh_object (n : string) : Obj :=
  mkObj n ∅ Matrix_Identity (false, false, false) (false, false, false)
    (false, false, false) true false false false None None None.

(** [bpy.ops.object.select_all(action="DESELECT")]. *)
Definition deselect_all (sc : scene) : scene := (fun o => set_select o false) <$> sc.

(** The creating operators leave the new objects as the only selected ones. *)
Definition add_objects (sc : scene) (os : list Obj) : scene := (deselect_all sc ++ os)%list.

(** [bpy.ops.object.delete()]: removes the selected objects. *)
Definition delete_selected (sc : scene) : scene := filter (fun o => select o = false) sc.
End Scene.

(** [bpy.data.objects]. *)
Abbreviation scene := (list Obj).

(** ** Modules of the add-on that the embedded files call

    [utils.get_direction_vector], the transform built by [utils.move_to],
    [material.assign_material], the preset builder ([presets.py]),
    [power.optimise_control_points] and the base class [part.Part] are kept
    as an interface. *)

Class Collab `{Host} : Type := {
  (** [utils.get_direction_vector(matrix, direction_matrix=...)]. *)
  get_direction_vector : Matrix -> string -> vec3;
  (** The world transform [utils.move_to] gives an object for a position,
      an up vector and an at vector. *)
  move_to_matrix : value -> value -> value -> result Matrix;
  (** [material.assign_material(item, colour_index, material)]: the object
      as the call leaves it.  Nothing is assumed of it: which material and
      which custom properties it sets is decided by [material.py]. *)
  assign_material : Obj -> value -> option string -> Obj;
  (** [PRESET_BUILDER.get_all_preset_data()]. *)
  get_all_preset_data : scene -> result (list value);
  (** [PRESET_BUILDER.build_presets_from_dict(data)]. *)
  build_presets_from_dict : pydict -> scene -> result scene;
  (** [power.optimise_control_points()]. *)
  optimise_control_points : scene -> result scene;
  (** [part.Part.serialise] and [part.Part.deserialise_from_data]. *)
  Part_serialise : Obj -> result pydict;
  Part_deserialise_from_data : pydict -> list value -> result Obj
}.

(** ** parts.py: [PartBuilder] *)

Section Parts.
Context `{Collab}.

(** One entry of [lights.json]: the type, the location and the other
    properties of a light. *)
Record light_values : Type := mkLight {
  light_type : string;
  light_location : vec3;
  light_props : pydict
}.

(** One entry of [part_reference]. *)
Record part_info : Type := mkPartInfo {
  category : string;
  full_path : string
}.

Record PartBuilder : Type := mkPartBuilder {
  lights_dictionary : gmap string (list (string * light_values));
  nice_name_dictionary : gmap string string;
  part_cache : gmap string Obj;
  part_reference : gmap string part_info;
  (** Attribute set from outside the class, by [new_file]. *)
  part_order : option Z
}.

(** [PartBuilder.__init__]: [models] is the content of the model folder,
    a list of categories with their sorted OBJ file names. *)
Definition PartBuilder_init
    (lights : gmap string (list (string * light_values)))
    (nice : gmap string string)
    (model_path : string)
    (models : list (string * list string)) : PartBuilder :=
  let add_category reference cat :=
    let '(category, parts) := cat in
    foldl (fun reference part =>
             <[part := mkPartInfo category
                         (path_join (path_join model_path category) part)]> reference)
          reference parts in
  mkPartBuilder lights nice ∅ (foldl add_category ∅ models) None.

Definition clear_cache (pb : PartBuilder) : PartBuilder :=
  mkPartBuilder (lights_dictionary pb) (nice_name_dictionary pb) ∅
    (part_reference pb) (part_order pb).

Definition set_part_order (pb : PartBuilder) (n : Z) : PartBuilder :=
  mkPartBuilder (lights_dictionary pb) (nice_name_dictionary pb) (part_cache pb)
    (part_reference pb) (Some n).

(** [part["belongs_to_preset"] is False]. *)
Definition is_False (v : value) : bool :=
  match v with PBool false => true | _ => false end.

Definition get_all_nms_objects (sc : scene) (capture_presets : bool) : result (list Obj) :=
  if capture_presets then
    let presets := filter (fun part => has_tag part "presetID" = true) sc in
    flat_parts ← filterM (fun part => v ← get_tag part "belongs_to_preset"; Ok (is_False v)) sc;
    Ok (presets ++ flat_parts)%list
  else
    Ok (filter (fun part => has_tag part "objectID" = true) sc).

Definition get_obj_path (pb : PartBuilder) (part : string) : option string :=
  full_path <$> part_reference pb !! part.

(** The lamp [build_light] makes for the entry number [idx] of a part. *)
Definition make_light (item_name : string) (idx : nat) (lv : light_values) : Obj :=
  let light := fresh_object (str_upper (light_type lv)) in
  let light := set_matrix_world light (Matrix_Translation (light_location lv)) in
  let light := set_tag light "NMS_LIGHT" (PBool true) in
  let light := set_name light (item_name +:+ "_light" +:+ str_of_int (Z.of_nat idx)) in
  let light := set_lamp light
                 (Some (str_upper (light_type lv),
                        foldl (fun data kv => dict_set data kv.1 kv.2) [] (light_props lv))) in
  (* utils.parent(item, light) *)
  let light := set_parent light (Some item_name) in
  let light := set_hide light true in
  set_hide_select light true.

Fixpoint build_lights_from (item_name : string) (idx : nat)
    (ls : list (string * light_values)) (sc : scene) : scene :=
  match ls with
  | [] => sc
  | (_, lv) :: ls' =>
      build_lights_from item_name (S idx) ls' (add_objects sc [make_light item_name idx lv])
  end.

(** [build_light(item)], [item] being the object at position [i]. *)
Definition build_light (pb : PartBuilder) (i : nat) (sc : scene) : scene :=
  match sc !! i with
  | None => sc
  | Some item =>
      match tags item !! "objectID" with
      | Some (PStr object_id) =>
          match lights_dictionary pb !! object_id with
          | None => sc
          | Some light_information =>
              build_lights_from (name item) 0 light_information sc
          end
      | _ => sc
      end
  end.

(** [item.name = n] for the object at position [item]: the host keeps
    the names of the objects distinct, so the object gets the name
    [unique_name] gives for the names the other objects bear. *)
Definition rename (sc : scene) (item : nat) (n : string) : scene :=
  let others := name <$> (take item sc ++ drop (S item) sc)%list in
  alter (fun o => set_name o (unique_name others n)) item sc.

(** Lines 131-147 of [retrieve_part]: import the OBJ file of the part
    or, without one, add a cube; name and tag the object; build its
    lights. *)
Definition retrieve_new (pb : PartBuilder) (sc : scene) (part_name : string)
    : result (nat * scene) :=
  let obj_path := default "" (get_obj_path pb part_name) in
  '(item, sc) ← (if isfile obj_path then
                   match import_obj obj_path with
                   | [] => Err IndexError
                   | names => Ok (length sc, add_objects sc (fresh_object <$> names))
                   end
                 else Ok (length sc, add_objects sc [fresh_object "Cube"]));
  let sc := rename sc item part_name in
  let sc := alter (fun o => set_tag o "objectID" (PStr part_name)) item sc in
  Ok (item, build_light pb item sc).

(** [retrieve_part(part_name)].  In the branch of a cache hit the name
    [item] is read before any assignment to it in the function (the
    [item] of the comprehension is local to the comprehension), so the
    [return] raises instead of calling [utils.duplicate_hierarchy]. *)
Definition retrieve_part (pb : PartBuilder) (sc : scene) (part_name : string)
    : result (nat * scene) :=
  match part_cache pb !! part_name with
  | Some item_object =>
      let all_item_names := name <$> sc in
      if bool_decide (name item_object ∈ all_item_names)
      then Err (UnboundLocalError "item")
      else retrieve_new pb sc part_name
  | None => retrieve_new pb sc part_name
  end.

Definition get_part_data (object : Obj) (is_preset : bool) : result pydict :=
  let ob_world_matrix := matrix_world object in
  let mat_rot := Matrix_Rotation (radians (float_of_Z (-90))) 4 "X" in
  let obj_wm_offset := mat_mul mat_rot ob_world_matrix in
  let pos := decompose_loc obj_wm_offset in
  let up := get_direction_vector obj_wm_offset "up" in
  let at_ := get_direction_vector obj_wm_offset "at" in
  object_id ← get_tag object "objectID";
  let data := [("ObjectID", PStr ("^" +:+ py_str object_id));
               ("Position", vec_list pos);
               ("Up", vec_list up);
               ("At", vec_list at_)] in
  if negb is_preset then
    timestamp ← get_tag object "Timestamp";
    user_data ← get_tag object "UserData";
    ts ← py_int timestamp;
    let data := dict_set data "Timestamp" (PInt ts) in
    ud ← py_int user_data;
    Ok (dict_set data "UserData" (PInt ud))
  else Ok data.

(** Modelled from the spec: [utils.move_to] (module [utils] is not among
    the embedded files): it moves and orients the object so that its up
    and forward axes match the given vectors at the given position. *)
Definition move_to (position up at_ : value) : result (Obj -> Obj) :=
  m ← move_to_matrix position up at_;
  Ok (fun item => set_matrix_world item m).

(** [build_item]; [utils.get_current_selection()] is a query whose
    result the function does not use. *)
Definition build_item (pb : PartBuilder) (sc : scene) (part : string)
    (timestamp userdata position up_vec at_vec : value) : result (nat * scene) :=
  '(item, sc) ← retrieve_part pb sc part;
  let sc := alter (fun o => set_lock_scale o (true, true, true)) item sc in
  let sc := if String.eqb part "BASE_FLAG"
            then alter (fun o => set_lock_rotation
                                   (set_lock_location o (true, true, true))
                                   (true, true, true)) item sc
            else sc in
  let sc := alter (fun o => set_tag (set_tag (set_tag o "objectID" (PStr part))
                                       "Timestamp" timestamp)
                              "belongs_to_preset" (PBool false)) item sc in
  let sc := alter (fun o => assign_material o userdata None) item sc in
  move ← move_to position up_vec at_vec;
  let sc := alter move item sc in
  let sc := alter (fun o => set_select o true) item sc in
  Ok (item, sc).

(** The default arguments of [build_item]. *)
Definition default_timestamp : value := PInt 1539023700.
Definition default_userdata : value := PInt 0.
Definition default_position : value := PList [PInt 0; PInt 0; PInt 0].
Definition default_up : value := PList [PInt 0; PInt 1; PInt 0].
Definition default_at : value := PList [PInt 0; PInt 0; PInt 1].

(** [s.replace("^", "")]. *)
Fixpoint remove_caret (s : string) : string :=
  match s with
  | EmptyString => EmptyString
  | String c s' => if Ascii.eqb c "^"%char then remove_caret s' else String c (remove_caret s')
  end.

Definition build_part_from_entry (pb : PartBuilder) (st : list nat * scene)
    (part_data : value) : result (list nat * scene) :=
  let '(parts, sc) := st in
  oid ← py_getitem part_data "ObjectID";
  part ← match oid with PStr s => Ok (remove_caret s) | _ => Err TypeError end;
  timestamp ← py_getitem part_data "Timestamp";
  user_data ← py_getitem part_data "UserData";
  part_position ← py_getitem part_data "Position";
  up_vec ← py_getitem part_data "Up";
  at_vec ← py_getitem part_data "At";
  '(item, sc) ← build_item pb sc part timestamp user_data part_position up_vec at_vec;
  Ok ((parts ++ [item])%list, sc).

(** [build_parts_from_dict(data)]; [None] is the bare [return]. *)
Definition build_parts_from_dict (pb : PartBuilder) (sc : scene) (data : pydict)
    : result (option (list nat) * scene) :=
  match dict_get data "Objects" with
  | None => Ok (None, sc)
  | Some (PList objects) =>
      '(parts, sc) ← foldM (build_part_from_entry pb) objects ([], sc);
      Ok (Some parts, sc)
  | Some _ => Err TypeError
  end.

(** Modelled from the spec: [PartBuilder.get_all_part_data] (called by
    [generate_data], not defined in the embedded [parts.py]): it
    serialises with [get_part_data] every object returned by
    [get_all_nms_objects], the [is_preset] flag being the
    preset-membership tag of the object. *)
Definition get_all_part_data (sc : scene) (capture_presets : bool) : result (list value) :=
  objects ← get_all_nms_objects sc capture_presets;
  mapM (fun o =>
          flag ← get_tag o "belongs_to_preset";
          d ← get_part_data o (py_truthy flag);
          Ok (PDict d)) objects.
End Parts.

(** ** snap.py: [Snapper] *)

(** The memory kept for one object name: the keys ["source"] and
    ["target"], whose values are a point key or [None]. *)
Abbreviation snap_reference := (gmap string (option string)).

Section Snap.
Context `{Collab}.

(** A snap point of [snapping_info.json]: its local matrix and, when it
    declares one, the key of its opposite point. *)
Record snap_point : Type := mkSnapPoint {
  matrix : list (list num);
  opposite : option string
}.

(** A snap group: its member part ids and, when present, its snap points
    in the order of the file. *)
Record snap_group : Type := mkSnapGroup {
  parts : list string;
  snap_points : option (list (string * snap_point))
}.

Record Snapper : Type := mkSnapper {
  snap_matrix_dictionary : list (string * snap_group);
  (** target group -> source group -> (target keys, source keys). *)
  snap_pair_dictionary : list (string * list (string * (string * string)));
  snap_cache : gmap string snap_reference
}.

Definition set_snap_cache (sn : Snapper) (c : gmap string snap_reference) : Snapper :=
  mkSnapper (snap_matrix_dictionary sn) (snap_pair_dictionary sn) c.

Definition get_snap_matrices_from_group (sn : Snapper) (group : option string)
    : option (list (string * snap_point)) :=
  match group with
  | None => None
  | Some g =>
      match dict_get (snap_matrix_dictionary sn) g with
      | Some value => snap_points value
      | None => None
      end
  end.

(** [part_id in parts], for a custom-property value [part_id]. *)
Definition id_in (part_id : value) (l : list string) : bool :=
  match part_id with
  | PStr s => bool_decide (s ∈ l)
  | _ => false
  end.

Fixpoint find_group (part_id : value) (groups : list (string * snap_group)) : option string :=
  match groups with
  | [] => None
  | (group, value) :: rest =>
      if id_in part_id (parts value) then Some group else find_group part_id rest
  end.

Definition get_snap_group_from_part (sn : Snapper) (part_id : value) : option string :=
  find_group part_id (snap_matrix_dictionary sn).

(** Truth value of a group name or of a key: [None] and the empty text
    are false. *)
Definition truthy_key (k : option string) : bool :=
  match k with
  | None => false
  | Some s => negb (String.eqb s "")
  end.

(** Lines 67-71 of [get_snap_pair_options]: the entry of the pairing
    catalog for a target group and a source group. *)
Definition pairing_entry (sn : Snapper) (target_group source_group : option string)
    : option (string * string) :=
  match target_group, source_group with
  | Some tg, Some sg =>
      match dict_get (snap_pair_dictionary sn) tg with
      | Some snapping_dictionary => dict_get snapping_dictionary sg
      | None => None
      end
  | _, _ => None
  end.

Definition get_snap_pair_options (sn : Snapper) (target_item_id source_item_id : value)
    : option (string * string) :=
  let target_group := get_snap_group_from_part sn target_item_id in
  let source_group := get_snap_group_from_part sn source_item_id in
  if negb (truthy_key target_group) && negb (truthy_key source_group) then None
  else pairing_entry sn target_group source_group.

Fixpoint index_of (k : string) (l : list string) : option nat :=
  match l with
  | [] => None
  | x :: l' => if String.eqb x k then Some 0%nat else S <$> index_of k l'
  end.

(** Modelled from the spec: [utils.get_adjacent_dict_key] (module
    [utils] is not among the embedded files): given an ordered list and
    a current value it returns the next or the previous entry
    cyclically, wrapping at both ends, and the current value unchanged if
    it is not in the list. *)
Definition get_adjacent_dict_key (options : list string) (current : string) (step : string)
    : string :=
  match index_of current options with
  | None => current
  | Some i =>
      let n := length options in
      let j := if String.eqb step "next" then ((i + 1) mod n)%nat
               else if String.eqb step "prev" then ((i + n - 1) mod n)%nat
               else i in
      default current (options !! j)
  end.

(** [[part.strip() for part in text.split(",")]]; never empty. *)
Definition pairing_options (text : string) : list string := strip <$> split_comma text.

(** [options[0]]; the list comes from [pairing_options]. *)
Definition first_option (options : list string) : string := hd "" options.

(** [source_id == target_id] on the values a [SnapID] holds. *)
Definition id_eq (a b : value) : bool :=
  match a, b with
  | PStr x, PStr y => String.eqb x y
  | PInt x, PInt y => Z.eqb x y
  | PBool x, PBool y => Bool.eqb x y
  | PNone, PNone => true
  | _, _ => false
  end.

(** [if datas:] on the snap points of a group. *)
Definition truthy_points (datas : option (list (string * snap_point))) : bool :=
  match datas with
  | Some (_ :: _) => true
  | _ => false
  end.

(** [datas[key]] where [datas] may be [None]. *)
Definition point_getitem (datas : option (list (string * snap_point))) (key : option string)
    : result snap_point :=
  match datas, key with
  | Some d, Some k => dict_getitem d k
  | _, _ => Err TypeError
  end.

(** Keep a remembered key only when it is one of the options. *)
Definition valid_or (options : list string) (key : option string) (dflt : string) : string :=
  match key with
  | Some k => if bool_decide (k ∈ options) then k else dflt
  | None => dflt
  end.

(** Lines 224-258 of [snap_objects]: the target key. *)
Definition resolve_target_key (target_item_snap_reference : snap_reference)
    (target_local_matrix_datas : option (list (string * snap_point)))
    (target_pairing_options : list string) (next_target prev_target : bool)
    : option string :=
  if truthy_points target_local_matrix_datas then
    let default_target_key := first_option target_pairing_options in
    let target_key :=
      default (Some default_target_key) (target_item_snap_reference !! "target") in
    let target_key := valid_or target_pairing_options target_key default_target_key in
    let target_key :=
      if next_target then get_adjacent_dict_key target_pairing_options target_key "next"
      else target_key in
    let target_key :=
      if prev_target then get_adjacent_dict_key target_pairing_options target_key "prev"
      else target_key in
    Some target_key
  else None.

(** Lines 272-296 of [snap_objects]: the source key before the
    [next_source] and [prev_source] steps. *)
Definition choose_source_key (source_item_snap_reference : snap_reference)
    (target_local_matrix_datas : option (list (string * snap_point)))
    (target_key : option string)
    (source_pairing_options : list string) (source_id target_id : value)
    (next_target prev_target : bool) : result string :=
  let default_source_key := first_option source_pairing_options in
  default_source_key ←
    (if id_eq source_id target_id then
       point ← point_getitem target_local_matrix_datas target_key;
       Ok (default default_source_key (opposite point))
     else Ok default_source_key);
  source_key ←
    (if id_eq source_id target_id && (prev_target || next_target) then
       point ← point_getitem target_local_matrix_datas target_key;
       Ok (Some (default default_source_key (opposite point)))
     else
       Ok (default (Some default_source_key) (source_item_snap_reference !! "source")));
  Ok (valid_or source_pairing_options source_key default_source_key).

(** Lines 298-310 of [snap_objects]: the [next_source] step, then the
    [prev_source] step. *)
Definition step_source_key (source_pairing_options : list string) (source_key : string)
    (next_source prev_source : bool) : string :=
  let source_key :=
    if next_source then get_adjacent_dict_key source_pairing_options source_key "next"
    else source_key in
  if prev_source then get_adjacent_dict_key source_pairing_options source_key "prev"
  else source_key.

(** Lines 260-310 of [snap_objects]: the source key. *)
Definition resolve_source_key (source_item_snap_reference : snap_reference)
    (source_local_matrix_datas target_local_matrix_datas : option (list (string * snap_point)))
    (target_key : option string)
    (source_pairing_options : list string) (source_id target_id : value)
    (next_source prev_source next_target prev_target : bool) : result (option string) :=
  if truthy_points source_local_matrix_datas then
    source_key ← choose_source_key source_item_snap_reference target_local_matrix_datas
                   target_key source_pairing_options source_id target_id
                   next_target prev_target;
    Ok (Some (step_source_key source_pairing_options source_key next_source prev_source))
  else Ok None.

Definition invert (m : Matrix) : result Matrix :=
  match mat_invert m with Some m' => Ok m' | None => Err ValueError end.

(** Lines 319-355 of [snap_objects]: the world transform given to the
    source. *)
Definition snap_location (start_matrix target_matrix : Matrix)
    (source_point target_point : result snap_point) : result Matrix :=
  start_matrix_inv ← invert start_matrix;
  sp ← source_point;
  let offset_matrix := Matrix_of_rows (matrix sp) in
  tp ← target_point;
  let target_offset_matrix := Matrix_of_rows (matrix tp) in
  let target_snap_matrix := mat_mul target_matrix target_offset_matrix in
  let snap_matrix := mat_mul start_matrix offset_matrix in
  snap_matrix_inv ← invert snap_matrix;
  let origin_matrix := mat_mul snap_matrix_inv snap_matrix in
  let rotation_matrix := Matrix_Rotation (radians (float_of_Z 180)) 4 "Y" in
  let origin_flipped_matrix := mat_mul rotation_matrix origin_matrix in
  let flipped_snap_matrix := mat_mul snap_matrix origin_flipped_matrix in
  let flipped_local_offset := mat_mul start_matrix_inv flipped_snap_matrix in
  flipped_local_offset ← invert flipped_local_offset;
  Ok (mat_mul target_snap_matrix flipped_local_offset).

(** What [snap_objects] returns: [None], [False] or [True]. *)
Inductive pyret : Type :=
| RNone
| RBool (b : bool).

(** The outcome of a call: the returned value, the snapper, the source
    object after the call and, when [utils.select] was called, the names
    it selected. *)
Record snap_outcome : Type := mkOutcome {
  returned : pyret;
  snapper_after : Snapper;
  source_after : Obj;
  selected : option (list string)
}.

Definition snap_objects (sn : Snapper) (source target : Obj)
    (next_source prev_source next_target prev_target : bool) : result snap_outcome :=
  if has_tag target "PresetID" then
    let source := set_matrix_world source (matrix_world target) in
    Ok (mkOutcome RNone sn source (Some [name source]))
  else if negb (has_tag source "SnapID") then Ok (mkOutcome (RBool false) sn source None)
  else if negb (has_tag target "SnapID") then Ok (mkOutcome (RBool false) sn source None)
  else
    let source := set_matrix_world source (matrix_world target) in
    target_id ← get_tag target "SnapID";
    source_id ← get_tag source "SnapID";
    match get_snap_pair_options sn target_id source_id with
    | None => Ok (mkOutcome (RBool false) sn source (Some [name source]))
    | Some snap_pairing_options =>
        let target_pairing_options := pairing_options snap_pairing_options.1 in
        let source_pairing_options := pairing_options snap_pairing_options.2 in
        let target_item_snap_reference := default ∅ (snap_cache sn !! name target) in
        let target_snap_group := get_snap_group_from_part sn target_id in
        let target_local_matrix_datas := get_snap_matrices_from_group sn target_snap_group in
        let target_key :=
          resolve_target_key target_item_snap_reference target_local_matrix_datas
            target_pairing_options next_target prev_target in
        let source_item_snap_reference := default ∅ (snap_cache sn !! name source) in
        let source_snap_group := get_snap_group_from_part sn source_id in
        let source_local_matrix_datas := get_snap_matrices_from_group sn source_snap_group in
        source_key ← resolve_source_key source_item_snap_reference
                       source_local_matrix_datas target_local_matrix_datas target_key
                       source_pairing_options source_id target_id
                       next_source prev_source next_target prev_target;
        if truthy_key source_key && truthy_key target_key then
          target_location ← snap_location (matrix_world source) (matrix_world target)
                              (point_getitem source_local_matrix_datas source_key)
                              (point_getitem target_local_matrix_datas target_key);
          let source := set_matrix_world source target_location in
          source_point ← point_getitem source_local_matrix_datas source_key;
          let next_target_key := opposite source_point in
          let source_item_snap_reference :=
            <["target" := next_target_key]>
              (<["source" := source_key]> source_item_snap_reference) in
          (* Both references are one dictionary when the two names are
             equal and the cache has an entry for that name. *)
          let target_item_snap_reference :=
            if bool_decide (name source = name target)
               && bool_decide (is_Some (snap_cache sn !! name target))
            then source_item_snap_reference else target_item_snap_reference in
          let target_item_snap_reference :=
            <["target" := target_key]> target_item_snap_reference in
          let cache := <[name source := source_item_snap_reference]> (snap_cache sn) in
          let cache := <[name target := target_item_snap_reference]> cache in
          Ok (mkOutcome (RBool true) (set_snap_cache sn cache) source
                (Some [name target; name source]))
        else
          Ok (mkOutcome RNone sn source (Some [name source]))
    end.
End Snap.

(** ** __init__.py: [NMSSettings] *)

Section Settings.
Context `{Collab}.

(** The properties of the settings group that hold the base record and
    the room visibility state. *)
Record NMSSettings : Type := mkSettings {
  preset_name : string;
  string_base : string;
  string_address : string;
  string_usn : string;
  string_uid : string;
  string_lid : string;
  string_ptk : string;
  string_ts : string;
  string_last_ts : string;
  float_pos_x : num;
  float_pos_y : num;
  float_pos_z : num;
  float_ori_x : num;
  float_ori_y : num;
  float_ori_z : num;
  LastEditedById : string;
  LastEditedByUsername_value : string;
  original_base_version : Z;
  room_vis_switch : Z
}.

(** The selection pass of [new_file] on one object. *)
Definition new_file_select (ob : Obj) : Obj :=
  let ob := if has_tag ob "ObjectID"
            then set_select (set_hide_select ob false) true else ob in
  let ob := if has_tag ob "PresetID"
            then set_select (set_hide_select ob false) true else ob in
  let ob := if has_tag ob "NMS_LIGHT"
            then set_select (set_hide_select (set_hide_viewport ob false) false) true
            else ob in
  let ob := if has_tag ob "base_builder_item"
            then set_select (set_hide_select (set_hide_viewport ob false) false) true
            else ob in
  ob.

Definition new_file (self : NMSSettings) (pb : PartBuilder) (sc : scene)
    : NMSSettings * PartBuilder * scene :=
  let self :=
    mkSettings (preset_name self) "" "" "" "" "" "" "" ""
      (float_of_Z 0) (float_of_Z 0) (float_of_Z 0)
      (float_of_Z 0) (float_of_Z 0) (float_of_Z 0)
      "" "" 3 (room_vis_switch self) in
  let pb := set_part_order pb 0 in
  let sc := deselect_all sc in
  let sc := new_file_select <$> sc in
  let sc := delete_selected sc in
  let self :=
    mkSettings (preset_name self) (string_base self) (string_address self)
      (string_usn self) (string_uid self) (string_lid self) (string_ptk self)
      (string_ts self) (string_last_ts self)
      (float_pos_x self) (float_pos_y self) (float_pos_z self)
      (float_ori_x self) (float_ori_y self) (float_ori_z self)
      (LastEditedById self) (LastEditedByUsername_value self)
      (original_base_version self) 0 in
  (self, pb, sc).

(** Assignment to an [IntProperty]. *)
Definition py_int_prop (v : value) : result Z :=
  match v with
  | PInt z => Ok z
  | PBool b => Ok (if b then 1 else 0)
  | _ => Err TypeError
  end.

(** [[v[0], v[1], v[2]]] assigned to three float properties. *)
Definition read_vec (v : value) : result (num * num * num) :=
  x ← py_index v 0 ≫= py_float;
  y ← py_index v 1 ≫= py_float;
  z ← py_index v 2 ≫= py_float;
  Ok (x, y, z).

(** The field copies of [generate_from_data], lines 200-227. *)
Definition read_base_record (self : NMSSettings) (nms_data : pydict) : result NMSSettings :=
  let address := match dict_get nms_data "GalacticAddress" with
                 | Some v => py_str v | None => string_address self end in
  pos ← match dict_get nms_data "Position" with
        | Some v => read_vec v
        | None => Ok (float_pos_x self, float_pos_y self, float_pos_z self) end;
  ori ← match dict_get nms_data "Forward" with
        | Some v => read_vec v
        | None => Ok (float_ori_x self, float_ori_y self, float_ori_z self) end;
  let base := match dict_get nms_data "Name" with
              | Some v => py_str v | None => string_base self end in
  let last_ts := match dict_get nms_data "LastUpdateTimestamp" with
                 | Some v => py_str v | None => string_last_ts self end in
  owner ← match dict_get nms_data "Owner" with
          | Some Owner_details =>
              uid ← py_getitem Owner_details "UID";
              ts ← py_getitem Owner_details "TS";
              lid ← py_getitem Owner_details "LID";
              usn ← py_getitem Owner_details "USN";
              ptk ← py_getitem Owner_details "PTK";
              Ok (py_str uid, py_str ts, py_str lid, py_str usn, py_str ptk)
          | None => Ok (string_uid self, string_ts self, string_lid self,
                        string_usn self, string_ptk self)
          end;
  let '(uid, ts, lid, usn, ptk) := owner in
  let by_id := match dict_get nms_data "LastEditedById" with
               | Some v => py_str v | None => LastEditedById self end in
  let by_name := match dict_get nms_data "LastEditedByUsername" with
                 | Some v => py_str v | None => LastEditedByUsername_value self end in
  version ← match dict_get nms_data "OriginalBaseVersion" with
            | Some v => py_int_prop v
            | None => Ok (original_base_version self) end;
  Ok (mkSettings (preset_name self) base address usn uid lid ptk ts last_ts
        pos.1.1 pos.1.2 pos.2 ori.1.1 ori.1.2 ori.2
        by_id by_name version (room_vis_switch self)).

(** [generate_from_data(nms_data)]; the profiler only prints. *)
Definition generate_from_data (self : NMSSettings) (pb : PartBuilder) (sc : scene)
    (nms_data : pydict) : result (NMSSettings * PartBuilder * scene) :=
  let '(self, pb, sc) := new_file self pb sc in
  self ← read_base_record self nms_data;
  sc ← (if dict_has nms_data "Objects"
        then snd <$> build_parts_from_dict pb sc nms_data else Ok sc);
  sc ← (if dict_has nms_data "Presets"
        then build_presets_from_dict nms_data sc else Ok sc);
  sc ← optimise_control_points sc;
  Ok (self, pb, sc).

(** [try: int(text) except: text]. *)
Definition int_or_text (text : string) : value :=
  match int_of_str text with
  | Some n => PInt n
  | None => PStr text
  end.

Definition generate_data (self : NMSSettings) (sc : scene) (capture_presets : bool)
    : result pydict :=
  let galactive_address := int_or_text (string_address self) in
  let ts := int_or_text (string_ts self) in
  let last_ts := int_or_text (string_last_ts self) in
  let data : pydict :=
    [("BaseVersion", PInt 4);
     ("OriginalBaseVersion", PInt (original_base_version self));
     ("GalacticAddress", galactive_address);
     ("Position", PList [PFloat (float_pos_x self); PFloat (float_pos_y self);
                         PFloat (float_pos_z self)]);
     ("Forward", PList [PFloat (float_ori_x self); PFloat (float_ori_y self);
                        PFloat (float_ori_z self)]);
     ("UserData", PInt 0);
     ("LastUpdateTimestamp", last_ts);
     ("RID", PStr "");
     ("Owner", PDict [("UID", PStr (string_uid self));
                      ("LID", PStr (string_lid self));
                      ("USN", PStr (string_usn self));
                      ("PTK", PStr (string_ptk self));
                      ("TS", ts)]);
     ("Name", PStr (string_base self));
     ("BaseType", PDict [("PersistentBaseTypes", PStr "HomePlanetBase")]);
     ("LastEditedById", PStr (LastEditedById self));
     ("LastEditedByUsername", PStr (LastEditedByUsername_value self))] in
  objects ← get_all_part_data sc capture_presets;
  let data := dict_set data "Objects" (PList objects) in
  if capture_presets then
    presets ← get_all_preset_data sc;
    Ok (dict_set data "Presets" (PList presets))
  else Ok data.
End Settings.

(** ** part_overrides/messagemodule.py: [MESSAGEMODULE]

    A part wraps one scene object ([self.object]); it is that object here. *)

Section MessageModule.
Context `{Collab}.

(** The [message] property: getter and setter. *)
Definition message (self : Obj) : value :=
  default (PStr "") (tags self !! "Message").

Definition set_message (self : Obj) (v : value) : Obj :=
  set_tag self "Message" (PStr (py_str v)).

Definition MESSAGEMODULE_serialise (self : Obj) : result pydict :=
  data ← Part_serialise self;
  Ok (dict_set data "Message" (message self)).

Definition MESSAGEMODULE_deserialise_from_data (data : pydict) (args : list value)
    : result Obj :=
  part ← Part_deserialise_from_data data args;
  Ok (set_message part (dict_get_default data "Message" (PStr ""))).

(** The variants a part id can be registered to. *)
Inductive part_class : Type :=
| BasePart
| MessageBearing.

(** Modelled from the spec: the override registry (not among the
    embedded files): serialisation is dispatched by the object-type id
    to the variant registered for it and to the base part otherwise. *)
Definition serialise_by_id (registry : gmap string part_class) (object_id : string)
    (part : Obj) : result pydict :=
  match registry !! object_id with
  | Some MessageBearing => MESSAGEMODULE_serialise part
  | _ => Part_serialise part
  end.

Definition deserialise_by_id (registry : gmap string part_class) (object_id : string)
    (data : pydict) (args : list value) : result Obj :=
  match registry !! object_id with
  | Some MessageBearing => MESSAGEMODULE_deserialise_from_data data args
  | _ => Part_deserialise_from_data data args
  end.
End MessageModule.

(** ** The life of the part builder

    The calls that reach the [PartBuilder] singleton or the scene between
    its creation and a later call of [retrieve_part]. *)

Section BuilderLife.
Context `{Collab}.

Inductive builder_call : Type :=
| CallClearCache
| CallRetrievePart (part_name : string)
| CallBuildItem (part : string) (timestamp userdata position up_vec at_vec : value)
| CallBuildPartsFromDict (data : pydict)
| CallNewFile (settings : NMSSettings)
| CallGenerateFromData (settings : NMSSettings) (nms_data : pydict)
(** Anything the user or the rest of the add-on does to the scene. *)
| SceneEdit (sc : scene).

(** A call that raises leaves the builder as it is; the scene is kept
    as it was at the call. *)
Definition builder_step (st : PartBuilder * scene) (c : builder_call)
    : PartBuilder * scene :=
  let '(pb, sc) := st in
  match c with
  | CallClearCache => (clear_cache pb, sc)
  | CallRetrievePart part_name =>
      match retrieve_part pb sc part_name with
      | Ok (_, sc') => (pb, sc')
      | Err _ => (pb, sc)
      end
  | CallBuildItem part timestamp userdata position up_vec at_vec =>
      match build_item pb sc part timestamp userdata position up_vec at_vec with
      | Ok (_, sc') => (pb, sc')
      | Err _ => (pb, sc)
      end
  | CallBuildPartsFromDict data =>
      match build_parts_from_dict pb sc data with
      | Ok (_, sc') => (pb, sc')
      | Err _ => (pb, sc)
      end
  | CallNewFile settings =>
      let '(_, pb', sc') := new_file settings pb sc in (pb', sc')
  | CallGenerateFromData settings nms_data =>
      match generate_from_data settings pb sc nms_data with
      | Ok (_, pb', sc') => (pb', sc')
      | Err _ => (set_part_order pb 0, sc)
      end
  | SceneEdit sc' => (pb, sc')
  end.

Definition builder_run (calls : list builder_call) (st : PartBuilder * scene)
    : PartBuilder * scene :=
  foldl builder_step st calls.
End BuilderLife.

(** ** More of parts.py and __init__.py *)

(** Float literals of the source that are not integers, such as [0.07]:
    the float the host reads for a decimal fraction. *)
Class FloatLiteral `{Host} : Type := {
  float_of_Q : Q -> num
}.

Section MoreParts.
Context `{Collab}.

(** [get_parts_from_category(category)]: the ids of [part_reference] whose
    category is the given one, sorted as texts. *)
Definition get_parts_from_category (pb : PartBuilder) (category_name : string)
    : list string :=
  let parts :=
    fst <$> filter (fun item => category item.2 = category_name)
              (map_to_list (part_reference pb)) in
  merge_sort (fun a b => String.leb a b) parts.

(** [text.endswith(suffix)]. *)
Fixpoint str_endswith (text suffix : string) : bool :=
  String.eqb text suffix ||
  match text with
  | EmptyString => false
  | String _ rest => str_endswith rest suffix
  end.

(** Lines 347-349 of [save_nms_data]: the path the document is written
    to. *)
Definition save_path (file_path : string) : string :=
  if negb (str_endswith file_path ".json") then file_path +:+ ".json" else file_path.
End MoreParts.

(** ** __init__.py: [create_sublists] *)

(** [range(0, stop, step)] for a positive [step]. *)
Definition py_range_step (stop step : nat) : list nat :=
  (fun k => k * step)%nat <$> seq 0 ((stop + step - 1) / step).

(** [create_sublists(input_list, n)].  [range] raises on a step of 0 and
    is empty for a negative one; [total_list[-1]] raises on an empty list;
    the last sub-list is the object held by [total_list], so the blanks
    appended to it are in the result. *)
Definition create_sublists (input_list : list string) (n : Z)
    : result (list (list string)) :=
  if Z.eqb n 0 then Err ValueError
  else
    let total_list :=
      if Z.ltb n 0 then []
      else (fun x => take (Z.to_nat n) (drop x input_list))
             <$> py_range_step (length input_list) (Z.to_nat n) in
    match last total_list with
    | None => Err IndexError
    | Some last_list =>
        Ok (removelast total_list
            ++ [last_list ++ replicate (Z.to_nat n - length last_list) ""])%list
    end.

(** ** __init__.py: room visibility *)

Section Visibility.
Context `{Collab} `{!FloatLiteral}.

(** What [toggle_room_visibility] writes outside the objects: the shading
    of the 3D view, the render engine, the scene lights switch and the
    alpha of the diffuse colour of every material. *)
Record viewport : Type := mkViewport {
  shading_type : string;
  render_engine : string;
  use_scene_lights : bool;
  material_alpha : list num
}.

Definition set_room_vis_switch (self : NMSSettings) (n : Z) : NMSSettings :=
  mkSettings (preset_name self) (string_base self) (string_address self)
    (string_usn self) (string_uid self) (string_lid self) (string_ptk self)
    (string_ts self) (string_last_ts self)
    (float_pos_x self) (float_pos_y self) (float_pos_z self)
    (float_ori_x self) (float_ori_y self) (float_ori_z self)
    (LastEditedById self) (LastEditedByUsername_value self)
    (original_base_version self) n.

(** [n in [a, b, ...]] on integers. *)
Definition Z_in (n : Z) (l : list Z) : bool := bool_decide (n ∈ l).

(** Lines 431-435: the next visibility state. *)
Definition next_room_vis (n : Z) : Z := if Z.ltb n 3 then n + 1 else 0.

(** Lines 475-486: the loop body on one object. *)
Definition toggle_object (invisible_objects : list string) (hidden hide_select_flag : bool)
    (ob : Obj) : Obj :=
  match tags ob !! "ObjectID" with
  | Some object_id =>
      if id_in object_id invisible_objects then
        let is_preset := default (PBool false) (tags ob !! "is_preset") in
        let ob := set_hide_viewport ob hidden in
        let ob := if negb (py_truthy is_preset) then set_hide_select ob hide_select_flag
                  else ob in
        set_select ob false
      else ob
  | None => ob
  end.

(** [toggle_room_visibility()]; [invisible_objects] is
    [GHOSTED_ITEMS["GHOSTED"]]. *)
Definition toggle_room_visibility (invisible_objects : list string)
    (self : NMSSettings) (view : viewport) (sc : scene)
    : NMSSettings * viewport * scene :=
  let switch := next_room_vis (room_vis_switch self) in
  let self := set_room_vis_switch self switch in
  let '(shading, engine) :=
    if Z_in switch [0; 1; 2] then ("SOLID", "BLENDER_EEVEE")
    else if Z_in switch [3] then ("MATERIAL", "BLENDER_EEVEE")
    else (shading_type view, render_engine view) in
  let hidden := negb (Z_in switch [0; 1; 3]) in
  let show_transparent := Z_in switch [1] in
  let hide_select_flag := Z_in switch [1] in
  let use_lights := Z_in switch [3] in
  let alpha := if show_transparent then float_of_Q (7 # 100) else float_of_Z 1 in
  let view := mkViewport shading engine use_lights ((fun _ => alpha) <$> material_alpha view) in
  (self, view, toggle_object invisible_objects hidden hide_select_flag <$> sc).
End Visibility.

(** ** A concrete host

    Exact rational numbers for the floats and 4x4 matrices as rows, used to
    run the definitions on concrete scenes.  Angles are multiples of a
    quarter turn, kept in degrees. *)

Module Concrete.
#[local] Open Scope Q_scope.

Definition mat : Type := list (list Q).

Definition row_get (r : list Q) (j : nat) : Q := nth j r 0.
Definition mat_get (m : mat) (i j : nat) : Q := row_get (nth i m []) j.

Definition build_mat (f : nat -> nat -> Q) : mat :=
  (fun i => (fun j => Qred (f i j)) <$> [0; 1; 2; 3]%nat) <$> [0; 1; 2; 3]%nat.

Definition identity : mat :=
  build_mat (fun i j => if Nat.eqb i j then 1 else 0).

Definition mul (a b : mat) : mat :=
  build_mat (fun i j =>
    mat_get a i 0 * mat_get b 0 j + mat_get a i 1 * mat_get b 1 j
    + mat_get a i 2 * mat_get b 2 j + mat_get a i 3 * mat_get b 3 j).

Definition translation (v : Q * Q * Q) : mat :=
  build_mat (fun i j =>
    if Nat.eqb j 3 then
      match i with 0%nat => v.1.1 | 1%nat => v.1.2 | 2%nat => v.2 | _ => 1 end
    else if Nat.eqb i j then 1 else 0).

(** Cosine and sine of a multiple of 90 degrees. *)
Definition cos_deg (a : Q) : Q :=
  match ((Qnum a / Zpos (Qden a) / 90) mod 4)%Z with
  | 0%Z => 1 | 2%Z => -1 | _ => 0
  end.
Definition sin_deg (a : Q) : Q :=
  match ((Qnum a / Zpos (Qden a) / 90) mod 4)%Z with
  | 1%Z => 1 | 3%Z => -1 | _ => 0
  end.

Definition rotation (a : Q) (size : nat) (axis : string) : mat :=
  let c := cos_deg a in
  let s := sin_deg a in
  if String.eqb axis "X" then
    [[1; 0; 0; 0]; [0; c; Qred (- s); 0]; [0; s; c; 0]; [0; 0; 0; 1]]
  else if String.eqb axis "Y" then
    [[c; 0; s; 0]; [0; 1; 0; 0]; [Qred (- s); 0; c; 0]; [0; 0; 0; 1]]
  else
    [[c; Qred (- s); 0; 0]; [s; c; 0; 0]; [0; 0; 1; 0]; [0; 0; 0; 1]].

(** Determinant by expansion along the first row, and the inverse from
    the cofactors. *)
Definition drop_col (j : nat) (r : list Q) : list Q := (firstn j r ++ skipn (S j) r)%list.
Definition drop_row (i : nat) (m : mat) : mat := (firstn i m ++ skipn (S i) m)%list.

Fixpoint det (n : nat) (m : mat) : Q :=
  match n with
  | O => 1
  | S n' =>
      match m with
      | [] => 1
      | r :: rest =>
          foldr Qplus 0
            (imap (fun j x =>
                     (if Nat.even j then x else - x) * det n' (drop_col j <$> rest)) r)
      end
  end.

Definition cofactor (m : mat) (i j : nat) : Q :=
  let d := det 3 (drop_col j <$> drop_row i m) in
  if Nat.even (i + j) then d else - d.

Definition inverse (m : mat) : option mat :=
  let d := det 4 m in
  if Qeq_bool d 0 then None
  else Some (build_mat (fun i j => cofactor m j i / d)).

(** Names as the host numbers them: a taken name gets the first free
    suffix among [.001], [.002], ... *)
Definition numbered (n : string) (k : nat) : string :=
  let digits := str_of_int (Z.of_nat k) in
  n +:+ "." +:+ (if (k <? 10)%nat then "00" else if (k <? 100)%nat then "0" else "")
    +:+ digits.

Fixpoint first_free (names : list string) (n : string) (k fuel : nat) : string :=
  match fuel with
  | O => numbered n k
  | S fuel' =>
      if bool_decide (numbered n k ∈ names) then first_free names n (S k) fuel'
      else numbered n k
  end.

Definition fresh_name (names : list string) (n : string) : string :=
  if bool_decide (n ∈ names) then first_free names n 1 (length names) else n.

Lemma fresh_name_free (names : list string) (n : string) :
  n ∉ names -> fresh_name names n = n.
Proof. intros Hn. unfold fresh_name. by rewrite bool_decide_eq_false_2. Qed.

Definition Q_host : Host := {|
  num := Q;
  float_of_Z := inject_Z;
  float_to_int := fun q => Some (Z.quot (Qnum q) (Zpos (Qden q)));
  float_is_zero := fun q => Qeq_bool q 0;
  int_of_unicode := fun _ => None;
  radians := fun a => a;
  Matrix := mat;
  Matrix_of_rows := fun rows => build_mat (mat_get rows);
  Matrix_Identity := identity;
  Matrix_Rotation := rotation;
  Matrix_Translation := translation;
  mat_mul := mul;
  mat_invert := inverse;
  decompose_loc := fun m => (mat_get m 0 3, mat_get m 1 3, mat_get m 2 3);
  py_repr := fun _ => "?";
  isfile := fun _ => false;
  path_join := fun a b => a +:+ "/" +:+ b;
  import_obj := fun _ => [];
  unique_name := fresh_name;
  unique_name_free := fresh_name_free
|}.

Definition column (m : mat) (j : nat) : Q * Q * Q :=
  (mat_get m 0 j, mat_get m 1 j, mat_get m 2 j).

Definition to_Q (v : pyval Q) : result Q :=
  match v with
  | PFloat x => Ok x
  | PInt z => Ok (inject_Z z)
  | _ => Err TypeError
  end.

Definition to_vec (v : pyval Q) : result (Q * Q * Q) :=
  match v with
  | PList [x; y; z] => x ← to_Q x; y ← to_Q y; z ← to_Q z; Ok (x, y, z)
  | _ => Err TypeError
  end.

Definition cross (a b : Q * Q * Q) : Q * Q * Q :=
  (a.1.2 * b.2 - a.2 * b.1.2, a.2 * b.1.1 - a.1.1 * b.2, a.1.1 * b.1.2 - a.1.2 * b.1.1).

(** The transform whose columns are the right, up and at vectors and the
    position. *)
Definition frame (position up at_ : pyval Q) : result mat :=
  p ← to_vec position; u ← to_vec up; a ← to_vec at_;
  let r := cross u a in
  Ok (build_mat (fun i j =>
        let pick (v : Q * Q * Q) :=
          match i with 0%nat => v.1.1 | 1%nat => v.1.2 | 2%nat => v.2 | _ => 0 end in
        match j with
        | 0%nat => pick r | 1%nat => pick u | 2%nat => pick a
        | _ => match i with 3%nat => 1 | _ => pick p end
        end)).

(** A scene without presets and without power controls; a base part
    that serialises its object id only; [material.assign_material] records
    the colour index as the material of the object and as its
    ["UserData"] property. *)
Definition Q_collab : @Collab Q_host := {|
  get_direction_vector := fun (m : @Matrix Q_host) d =>
    if String.eqb d "up" then column m 1 else column m 2;
  move_to_matrix := frame;
  assign_material := fun item colour_index family =>
    set_tag (set_material item (Some (colour_index, family))) "UserData" colour_index;
  get_all_preset_data := fun _ => Ok [];
  build_presets_from_dict := fun _ sc => Ok sc;
  optimise_control_points := fun sc => Ok sc;
  Part_serialise := fun o =>
    match tags o !! "ObjectID" with
    | Some v => Ok [("ObjectID", v)]
    | None => Err (KeyError "ObjectID")
    end;
  Part_deserialise_from_data := fun data _ =>
    match dict_get data "ObjectID" with
    | Some v => Ok (set_tag (fresh_object "Cube") "ObjectID" v)
    | None => Err (KeyError "ObjectID")
    end
|}.

(** *** Concrete scenes, catalogs and documents *)

#[local] Existing Instance Q_host.
#[local] Existing Instance Q_collab.

(** A builder over an empty model folder: every part is a cube. *)
Definition builder : PartBuilder := PartBuilder_init ∅ ∅ "models" [].

Definition built : result (nat * scene) :=
  build_item builder [] "CUBE" default_timestamp default_userdata
    default_position default_up default_at.

(** The scene after one [build_item] on an empty scene, and its part. *)
Definition built_scene : scene :=
  match built with Ok (_, sc) => sc | Err _ => [] end.

Definition built_part : Obj :=
  set_select
    (set_material
       (set_lock_scale
          (set_tags (fresh_object "CUBE")
             (<["UserData" := PInt 0]>
                (<["belongs_to_preset" := PBool false]>
                   (<["Timestamp" := PInt 1539023700]> {["objectID" := PStr "CUBE"]}))))
          (true, true, true))
       (Some (PInt 0, None)))
    true.

(** An object that carries the object id only. *)
Definition bare_part : Obj := set_tag (fresh_object "CUBE") "objectID" (PStr "CUBE").

(** A part with every tag [get_part_data] reads. *)
Definition full_part : Obj :=
  set_tag (set_tag (set_tag (set_tag (fresh_object "CUBE")
    "objectID" (PStr "CUBE")) "Timestamp" (PInt 1539023700))
    "UserData" (PInt 0)) "belongs_to_preset" (PBool false).

Definition settings : NMSSettings :=
  mkSettings "" "Base" "12345" "user" "uid" "lid" "ptk" "1600000000" "not set"
    0 0 0 0 0 0 "" "" 3 0.

(** The document saved from the scene that holds [full_part]. *)
Definition saved_objects : list (pyval Q) :=
  [PDict [("ObjectID", PStr "^CUBE");
          ("Position", PList [PFloat 0; PFloat 0; PFloat 0]);
          ("Up", PList [PFloat 0; PFloat 0; PFloat (-1)]);
          ("At", PList [PFloat 0; PFloat 1; PFloat 0]);
          ("Timestamp", PInt 1539023700);
          ("UserData", PInt 0)]].

Definition saved_document : list (string * pyval Q) :=
  match generate_data settings [full_part] true with
  | Ok d => d
  | Err _ => []
  end.

(** A lamp as [build_light] makes it. *)
Definition lamp_object : Obj :=
  make_light "CUBE" 0 (mkLight "point" (0, 0, 1) []).

(** One snap group with two member parts and four snap points; the
    points of the target side are [p] and [q], those of the source side
    [r] and [s]; [q] declares [s] as its opposite. *)
Definition unit_point (x : Q) (opp : option string) : snap_point :=
  mkSnapPoint [[1; 0; 0; x]; [0; 1; 0; 0]; [0; 0; 1; 0]; [0; 0; 0; 1]] opp.

Definition group_points : list (string * snap_point) :=
  [("p", unit_point 1 (Some "r")); ("q", unit_point 2 (Some "s"));
   ("r", unit_point 3 (Some "p")); ("s", unit_point 4 (Some "q"))].

Definition snapper : Snapper :=
  mkSnapper [("G", mkSnapGroup ["A"; "B"] (Some group_points))]
            [("G", [("G", ("p, q", "r, s"))])]
            ∅.

Definition snap_part (n id : string) : Obj := set_tag (fresh_object n) "SnapID" (PStr id).

(** A builder whose cache holds an object, were one ever stored. *)
Definition cached_builder : PartBuilder :=
  mkPartBuilder ∅ ∅ {["CUBE" := bare_part]} ∅ None.

Definition registry : gmap string part_class := {["MESSAGEMODULE" := MessageBearing]}.

Definition message_part : Obj :=
  set_tag (set_tag (fresh_object "Cube") "ObjectID" (PStr "^MESSAGEMODULE"))
    "Message" (PStr "hello").

Definition message_data : list (string * pyval Q) :=
  [("ObjectID", PStr "^MESSAGEMODULE"); ("Message", PStr "hello")].
End Concrete.

(** * Properties *)

(** ** Dictionaries *)

Section DictFacts.
Context {V : Type}.
Implicit Types (d : list (string * V)) (k : string) (v : V).

Lemma dict_get_set_eq d k v : dict_get (dict_set d k v) k = Some v.
Proof.
  induction d as [|[k' v'] d IH]; simpl.
  - by rewrite String.eqb_refl.
  - destruct (String.eqb k' k) eqn:E; simpl; rewrite E; auto.
Qed.

Lemma dict_get_set_ne d k k' v : k <> k' -> dict_get (dict_set d k v) k' = dict_get d k'.
Proof.
  intros Hne. induction d as [|[k0 v0] d IH]; simpl.
  - destruct (String.eqb k k') eqn:E; [apply String.eqb_eq in E; congruence | done].
  - destruct (String.eqb k0 k) eqn:E; simpl.
    + apply String.eqb_eq in E; subst k0.
      destruct (String.eqb k k') eqn:E'; [apply String.eqb_eq in E'; congruence | done].
    + destruct (String.eqb k0 k'); auto.
Qed.

Lemma dict_has_set d k k' v :
  dict_has (dict_set d k v) k' = String.eqb k k' || dict_has d k'.
Proof.
  unfold dict_has. destruct (String.eqb k k') eqn:E.
  - apply String.eqb_eq in E; subst. by rewrite dict_get_set_eq.
  - rewrite dict_get_set_ne; [done|]. intros ->. by rewrite String.eqb_refl in E.
Qed.

Lemma dict_has_get d k : dict_has d k = true <-> is_Some (dict_get d k).
Proof.
  unfold dict_has. destruct (dict_get d k); split; intros Hx; try done; by inversion Hx.
Qed.
End DictFacts.

(** ** The result monad *)

Section ResultFacts.
Context {A : Type}.

(** A comprehension whose test raises [e] on one element, and can raise
    nothing else, raises [e]. *)
Lemma filterM_raises (p : A -> result bool) (l : list A) (x : A) (e : pyerr) :
  x ∈ l -> p x = Err e ->
  (forall y e', p y = Err e' -> e' = e) ->
  filterM p l = Err e.
Proof.
  intros Hin Hx Honly. induction l as [|y l IH]; [by apply elem_of_nil in Hin|].
  simpl. destruct (p y) as [b|e'] eqn:Hy; simpl.
  - apply elem_of_cons in Hin as [->|Hin]; [congruence|].
    by rewrite (IH Hin).
  - by rewrite (Honly _ _ Hy).
Qed.

Lemma filterM_total (p : A -> result bool) (l : list A) :
  (forall y, y ∈ l -> exists b, p y = Ok b) -> exists r, filterM p l = Ok r.
Proof.
  induction l as [|y l IH]; intros Hall; simpl; [by eexists|].
  destruct (Hall y) as [b ->]; [by left|]. simpl.
  destruct IH as [r ->]; [intros z Hz; apply Hall; by right|].
  simpl. by eexists.
Qed.
End ResultFacts.

(** ** parts.py *)

Section PartsFacts.
Context `{Collab}.

Lemma has_tag_lookup (o : Obj) (k : string) :
  has_tag o k = true <-> is_Some (tags o !! k).
Proof.
  unfold has_tag. rewrite bool_decide_eq_true. apply elem_of_dom.
Qed.

Lemma has_tag_false (o : Obj) (k : string) :
  has_tag o k = false <-> tags o !! k = None.
Proof.
  unfold has_tag. rewrite bool_decide_eq_false, not_elem_of_dom. done.
Qed.

(** The lamps of [build_light] carry the light tag only. *)
Lemma make_light_tags item_name idx lv :
  tags (make_light item_name idx lv) = {["NMS_LIGHT" := PBool true]}.
Proof. done. Qed.

Lemma retrieve_part_new pb sc part_name item sc' :
  retrieve_part pb sc part_name = Ok (item, sc') ->
  retrieve_new pb sc part_name = Ok (item, sc').
Proof.
  unfold retrieve_part. destruct (part_cache pb !! part_name); [|done].
  by case_bool_decide.
Qed.

(** Without a ["UserData"] tag the serialisation of a part that is not
    a preset member stops at the lookup of that tag. *)
Lemma get_part_data_missing_userdata (o : Obj) :
  is_Some (tags o !! "objectID") -> is_Some (tags o !! "Timestamp") ->
  tags o !! "UserData" = None ->
  get_part_data o false = Err (KeyError "UserData").
Proof.
  intros [oid Ho] [ts Ht] Hu. unfold get_part_data, get_tag.
  rewrite Ho, Ht, Hu. done.
Qed.
End PartsFacts.

Section PartsClaims.
Context `{Collab}.

(** C9. With [capture_presets] set, [get_all_nms_objects] reads the
    ["belongs_to_preset"] tag of every object of the scene: as soon as
    one object of the scene has no such tag, the call raises a
    [KeyError] on that key instead of returning the preset roots and the
    top-level parts. *)
Theorem get_all_nms_objects_untagged_raises (sc : scene) (o : Obj) :
  o ∈ sc -> tags o !! "belongs_to_preset" = None ->
  get_all_nms_objects sc true = Err (KeyError "belongs_to_preset").
Proof.
  intros Hin Hno. unfold get_all_nms_objects.
  rewrite (filterM_raises _ sc o (KeyError "belongs_to_preset")); [done|done| |].
  - unfold get_tag. by rewrite Hno.
  - intros y e'. unfold get_tag. by destruct (tags y !! "belongs_to_preset"); intros [= <-].
Qed.

(** The lamps made by [build_light] are such objects. *)
Lemma make_light_untagged item_name idx lv :
  tags (make_light item_name idx lv) !! "belongs_to_preset" = None.
Proof. by rewrite make_light_tags. Qed.

(** When every object has the tag, the call returns the preset roots
    followed by the objects whose tag is [False]. *)
Lemma get_all_nms_objects_tagged (sc : scene) :
  (forall o, o ∈ sc -> is_Some (tags o !! "belongs_to_preset")) ->
  exists flat_parts,
    get_all_nms_objects sc true
    = Ok (filter (fun part => has_tag part "presetID" = true) sc ++ flat_parts)%list.
Proof.
  intros Hall. unfold get_all_nms_objects.
  destruct (filterM_total
              (fun part => v ← get_tag part "belongs_to_preset"; Ok (is_False v)) sc)
    as [r ->]; [|by eexists].
  intros y Hy. destruct (Hall y Hy) as [v Hv]. unfold get_tag. rewrite Hv. by eexists.
Qed.

(** The world transform of an object in game space. *)
Definition game_matrix (object : Obj) : Matrix :=
  mat_mul (Matrix_Rotation (radians (float_of_Z (-90))) 4 "X") (matrix_world object).

(** C4, as amended.  For an object that carries the ["objectID"] tag
    and, when it is not serialised as a preset member, the ["Timestamp"]
    and ["UserData"] tags with values [int] accepts, [get_part_data]
    returns a dictionary whose [ObjectID] is ["^"] followed by the tag and
    whose [Position], [Up] and [At] are the translation, the up vector and
    the at vector of the world transform premultiplied by the rotation of
    -90 degrees about X; [Timestamp] and [UserData] are keys of it
    exactly when [is_preset] is false, and then hold the integers read
    from the tags. *)
Theorem get_part_data_fields (object : Obj) (is_preset : bool)
    (oid timestamp user_data : value) (ts ud : Z) :
  tags object !! "objectID" = Some oid ->
  (is_preset = false ->
   tags object !! "Timestamp" = Some timestamp /\ py_int timestamp = Ok ts /\
   tags object !! "UserData" = Some user_data /\ py_int user_data = Ok ud) ->
  exists data,
    get_part_data object is_preset = Ok data /\
    dict_get data "ObjectID" = Some (PStr ("^" +:+ py_str oid)) /\
    dict_get data "Position" = Some (vec_list (decompose_loc (game_matrix object))) /\
    dict_get data "Up"
    = Some (vec_list (get_direction_vector (game_matrix object) "up")) /\
    dict_get data "At"
    = Some (vec_list (get_direction_vector (game_matrix object) "at")) /\
    dict_has data "Timestamp" = negb is_preset /\
    dict_has data "UserData" = negb is_preset /\
    (is_preset = false ->
     dict_get data "Timestamp" = Some (PInt ts) /\
     dict_get data "UserData" = Some (PInt ud)).
Proof.
  intros Hoid Htags. unfold get_part_data, get_tag. rewrite Hoid. simpl.
  fold (game_matrix object).
  destruct is_preset; simpl.
  - eexists. split; [done|]. repeat split; try done.
  - destruct Htags as (Ht & Hts & Hu & Hud); [done|].
    rewrite Ht, Hu. simpl. rewrite Hts. simpl. rewrite Hud. simpl.
    eexists. split; [done|]. repeat split; done.
Qed.

End PartsClaims.

(** ** The part cache *)

Section BuilderClaims.
Context `{Collab}.

Lemma new_file_cache settings pb sc :
  part_cache (new_file settings pb sc).1.2 = part_cache pb.
Proof. done. Qed.

Lemma generate_from_data_cache settings pb sc nms_data settings' pb' sc' :
  generate_from_data settings pb sc nms_data = Ok (settings', pb', sc') ->
  part_cache pb' = part_cache pb.
Proof.
  unfold generate_from_data. simpl. intros Hg.
  destruct (read_base_record _ _); [|done]. simpl in Hg.
  destruct (if dict_has nms_data "Objects" then _ else _); [|done]. simpl in Hg.
  destruct (if dict_has nms_data "Presets" then _ else _); [|done]. simpl in Hg.
  destruct (optimise_control_points _); [|done]. simpl in Hg.
  by injection Hg as <- <- <-.
Qed.

(** No call writes the cache: a step keeps it or empties it. *)
Lemma builder_step_cache (st : PartBuilder * scene) (c : builder_call) :
  part_cache (builder_step st c).1 = part_cache st.1 \/
  part_cache (builder_step st c).1 = ∅.
Proof.
  destruct st as [pb sc]. destruct c; simpl.
  - by right.
  - left. by destruct (retrieve_part pb sc part_name) as [[]|].
  - left. by destruct (build_item _ _ _ _ _ _ _ _) as [[]|].
  - left. by destruct (build_parts_from_dict _ _ _) as [[]|].
  - by left.
  - left. destruct (generate_from_data _ _ _ _) as [[[s' pb'] sc']|] eqn:Hg; [|done].
    simpl. by apply generate_from_data_cache in Hg.
  - by left.
Qed.

Lemma builder_run_cache (calls : list builder_call) (st : PartBuilder * scene) :
  part_cache st.1 = ∅ -> part_cache (builder_run calls st).1 = ∅.
Proof.
  revert st. induction calls as [|c calls IH]; intros st Hst; [done|].
  simpl. apply IH. destruct (builder_step_cache st c) as [-> | ->]; done.
Qed.

(** C10.  [part_cache] is created empty and is only read and cleared:
    after any sequence of calls on a new builder it is empty, and
    [retrieve_part] is the import of the OBJ file or the cube of
    [retrieve_new]; and on a cache that holds the part with an object
    whose name is still in the scene, [retrieve_part] raises on the
    unassigned name [item] instead of duplicating. *)
Theorem retrieve_part_cache_branch :
  (forall lights nice model_path models (sc0 : scene) (calls : list builder_call)
          (part_name : string),
      let st := builder_run calls (PartBuilder_init lights nice model_path models, sc0) in
      part_cache st.1 = ∅ /\
      retrieve_part st.1 st.2 part_name = retrieve_new st.1 st.2 part_name) /\
  (forall (pb : PartBuilder) (sc : scene) (part_name : string) (cached : Obj),
      part_cache pb !! part_name = Some cached ->
      name cached ∈ name <$> sc ->
      retrieve_part pb sc part_name = Err (UnboundLocalError "item")).
Proof.
  split.
  - intros lights nice model_path models sc0 calls part_name st.
    assert (Hc : part_cache st.1 = ∅) by (by apply builder_run_cache).
    split; [done|]. unfold retrieve_part. by rewrite Hc, lookup_empty.
  - intros pb sc part_name cached Hc Hin. unfold retrieve_part.
    rewrite Hc. by rewrite bool_decide_eq_true_2.
Qed.
End BuilderClaims.

(** ** snap.py *)

Section SnapClaims.
Context `{Collab}.

Lemma get_snap_pair_options_no_entry sn target_id source_id :
  pairing_entry sn (get_snap_group_from_part sn target_id)
                   (get_snap_group_from_part sn source_id) = None ->
  get_snap_pair_options sn target_id source_id = None.
Proof.
  intros Hn. unfold get_snap_pair_options. rewrite Hn. by destruct (_ && _).
Qed.

Lemma valid_or_same (options : list string) (k : string) :
  valid_or options (Some k) k = k.
Proof. unfold valid_or. by destruct (bool_decide _). Qed.

(** C6.  When source and target both carry a ["SnapID"] and the pairing
    catalog has no entry for their groups, [snap_objects] does not report
    success (it returns [False], or [None] when the target is a preset
    root), leaves the snapper as it is, and the world transform of the
    source is the one of the target. *)
Theorem snap_objects_without_pairing (sn : Snapper) (source target : Obj)
    (next_source prev_source next_target prev_target : bool)
    (source_id target_id : value) :
  tags source !! "SnapID" = Some source_id ->
  tags target !! "SnapID" = Some target_id ->
  pairing_entry sn (get_snap_group_from_part sn target_id)
                   (get_snap_group_from_part sn source_id) = None ->
  exists out,
    snap_objects sn source target next_source prev_source next_target prev_target = Ok out /\
    returned out = (if has_tag target "PresetID" then RNone else RBool false) /\
    matrix_world (source_after out) = matrix_world target /\
    tags (source_after out) = tags source /\
    snapper_after out = sn.
Proof.
  intros Hs Ht Hn. unfold snap_objects.
  destruct (has_tag target "PresetID"); [by eexists|].
  assert (Hhs : has_tag source "SnapID" = true) by (apply has_tag_lookup; by rewrite Hs).
  assert (Hht : has_tag target "SnapID" = true) by (apply has_tag_lookup; by rewrite Ht).
  rewrite Hhs, Hht. simpl. unfold get_tag. simpl. rewrite Hs, Ht. simpl.
  rewrite (get_snap_pair_options_no_entry _ _ _ Hn). by eexists.
Qed.

(** C7, as amended.  With [target_key] the key resolved for the target:
    when source and target carry the same ["SnapID"] and a next or
    previous target step was asked for, the source key is the opposite
    declared by the target point (the first source option of the pairing
    when it declares none), on which the next and previous source steps
    are then applied; otherwise it is the key remembered for the source
    when that key is one of the source options, else the default (which,
    for equal ids, is that same opposite or first option), followed by
    the same steps. *)
Theorem resolve_source_key_cases (source_ref : snap_reference)
    (source_datas target_datas : option (list (string * snap_point)))
    (target_key : option string) (source_options : list string)
    (source_id target_id : value)
    (next_source prev_source next_target prev_target : bool) (point : snap_point) :
  truthy_points source_datas = true ->
  (id_eq source_id target_id = true -> point_getitem target_datas target_key = Ok point) ->
  let forced := default (first_option source_options) (opposite point) in
  let dflt := if id_eq source_id target_id then forced else first_option source_options in
  resolve_source_key source_ref source_datas target_datas target_key source_options
    source_id target_id next_source prev_source next_target prev_target
  = Ok (Some (step_source_key source_options
                (if id_eq source_id target_id && (prev_target || next_target)
                 then forced
                 else valid_or source_options
                        (default (Some dflt) (source_ref !! "source")) dflt)
                next_source prev_source)).
Proof.
  intros Hsd Hpt forced dflt. unfold resolve_source_key, choose_source_key.
  rewrite Hsd. subst forced dflt.
  destruct (id_eq source_id target_id) eqn:Heq; simpl.
  - rewrite (Hpt eq_refl). simpl.
    destruct (prev_target || next_target); simpl; [|done].
    destruct (opposite point); simpl; by destruct (bool_decide _).
  - done.
Qed.
(** On success [snap_objects] remembers, under the name of the source, the
    source key that [resolve_source_key] gives for the target key of
    [resolve_target_key]. *)
Lemma snap_objects_records_source_key (sn : Snapper) (source target : Obj)
    (next_source prev_source next_target prev_target : bool)
    (source_id target_id : value) (options : string * string) (out : snap_outcome) :
  has_tag target "PresetID" = false ->
  tags source !! "SnapID" = Some source_id ->
  tags target !! "SnapID" = Some target_id ->
  get_snap_pair_options sn target_id source_id = Some options ->
  name source <> name target ->
  snap_objects sn source target next_source prev_source next_target prev_target = Ok out ->
  returned out = RBool true ->
  let target_datas :=
    get_snap_matrices_from_group sn (get_snap_group_from_part sn target_id) in
  let source_datas :=
    get_snap_matrices_from_group sn (get_snap_group_from_part sn source_id) in
  let target_key :=
    resolve_target_key (default ∅ (snap_cache sn !! name target)) target_datas
      (pairing_options options.1) next_target prev_target in
  exists source_key,
    resolve_source_key (default ∅ (snap_cache sn !! name source)) source_datas target_datas
      target_key (pairing_options options.2) source_id target_id
      next_source prev_source next_target prev_target = Ok (Some source_key) /\
    snap_cache (snapper_after out) !! name source ≫= (.!! "source")
    = Some (Some source_key).
Proof.
  intros Hp Hs Ht Hopt Hne Hsnap Hret target_datas source_datas target_key.
  unfold snap_objects in Hsnap. rewrite Hp in Hsnap.
  assert (Hhs : has_tag source "SnapID" = true) by (apply has_tag_lookup; by rewrite Hs).
  assert (Hht : has_tag target "SnapID" = true) by (apply has_tag_lookup; by rewrite Ht).
  rewrite Hhs, Hht in Hsnap. cbn [negb] in Hsnap. unfold get_tag in Hsnap.
  cbn [tags set_matrix_world] in Hsnap. rewrite Hs, Ht in Hsnap.
  cbn [mbind result_bind] in Hsnap. rewrite Hopt in Hsnap.
  cbn [name set_matrix_world] in Hsnap.
  fold target_datas source_datas target_key in Hsnap.
  destruct (resolve_source_key _ _ _ _ _ _ _ _ _ _ _) as [[source_key|]|] eqn:Hres;
    cbn [mbind result_bind] in Hsnap; try discriminate Hsnap.
  2:{ cbn [truthy_key andb] in Hsnap. injection Hsnap as <-. discriminate Hret. }
  exists source_key. split; [done|].
  destruct (truthy_key (Some source_key) && truthy_key target_key).
  2:{ injection Hsnap as <-. discriminate Hret. }
  destruct (snap_location _ _ _ _); cbn [mbind result_bind] in Hsnap; [|discriminate Hsnap].
  destruct (point_getitem source_datas (Some source_key));
    cbn [mbind result_bind] in Hsnap; [|discriminate Hsnap].
  injection Hsnap as <-. cbn [snapper_after set_snap_cache snap_cache].
  rewrite lookup_insert_ne by (intros Heq; by apply Hne).
  rewrite lookup_insert_eq. cbn [mbind option_bind].
  rewrite lookup_insert_ne by done. by rewrite lookup_insert_eq.
Qed.

End SnapClaims.

(** ** __init__.py *)

Section SettingsClaims.
Context `{Collab}.

(** C5.  Whenever the parts (and, with [capture_presets], the presets)
    of the scene serialise, [generate_data] returns a document with
    [BaseVersion] 4, [UserData] 0, an empty [RID], the fixed [BaseType],
    the stored version and the serialised objects; [GalacticAddress],
    [LastUpdateTimestamp] and the [TS] of [Owner] are integers exactly
    when the stored text is accepted by [int] and are that text
    otherwise; and [Presets] is a key exactly when [capture_presets] is
    set. *)
Theorem generate_data_document (self : NMSSettings) (sc : scene) (capture_presets : bool)
    (objects presets : list value) :
  get_all_part_data sc capture_presets = Ok objects ->
  (capture_presets = true -> get_all_preset_data sc = Ok presets) ->
  exists data owner,
    generate_data self sc capture_presets = Ok data /\
    dict_get data "BaseVersion" = Some (PInt 4) /\
    dict_get data "OriginalBaseVersion" = Some (PInt (original_base_version self)) /\
    dict_get data "UserData" = Some (PInt 0) /\
    dict_get data "RID" = Some (PStr "") /\
    dict_get data "BaseType"
    = Some (PDict [("PersistentBaseTypes", PStr "HomePlanetBase")]) /\
    dict_get data "GalacticAddress"
    = Some (match int_of_str (string_address self) with
            | Some n => PInt n
            | None => PStr (string_address self)
            end) /\
    dict_get data "LastUpdateTimestamp"
    = Some (match int_of_str (string_last_ts self) with
            | Some n => PInt n
            | None => PStr (string_last_ts self)
            end) /\
    dict_get data "Owner" = Some (PDict owner) /\
    dict_get owner "TS"
    = Some (match int_of_str (string_ts self) with
            | Some n => PInt n
            | None => PStr (string_ts self)
            end) /\
    dict_get data "Objects" = Some (PList objects) /\
    dict_has data "Presets" = capture_presets /\
    (capture_presets = true -> dict_get data "Presets" = Some (PList presets)).
Proof.
  intros Hobj Hpre. unfold generate_data. rewrite Hobj.
  assert (Hfold : forall s : string,
             match int_of_str s with Some n => PInt n | None => PStr s end
             = int_or_text s :> value) by reflexivity.
  rewrite !Hfold.
  generalize (int_or_text (string_address self)) (int_or_text (string_ts self))
             (int_or_text (string_last_ts self)).
  intros address ts last_ts.
  destruct capture_presets.
  - rewrite (Hpre eq_refl).
    do 2 eexists. split; [reflexivity|].
    repeat (split; [reflexivity|]). intros _. reflexivity.
  - do 2 eexists. split; [reflexivity|].
    repeat (split; [reflexivity|]). done.
Qed.

(** [new_file] gives every field of the base record its default and
    puts the room visibility back to 0. *)
Lemma new_file_record (self : NMSSettings) (pb : PartBuilder) (sc : scene) :
  let self' := (new_file self pb sc).1.1 in
  string_address self' = "" /\ string_base self' = "" /\
  string_lid self' = "" /\ string_ts self' = "" /\ string_uid self' = "" /\
  string_usn self' = "" /\ string_ptk self' = "" /\ string_last_ts self' = "" /\
  LastEditedById self' = "" /\ LastEditedByUsername_value self' = "" /\
  float_pos_x self' = float_of_Z 0 /\ float_pos_y self' = float_of_Z 0 /\
  float_pos_z self' = float_of_Z 0 /\ float_ori_x self' = float_of_Z 0 /\
  float_ori_y self' = float_of_Z 0 /\ float_ori_z self' = float_of_Z 0 /\
  original_base_version self' = 3 /\ room_vis_switch self' = 0.
Proof. simpl. repeat split. Qed.

(** The four tags [new_file] looks for. *)
Definition new_file_marked (o : Obj) : bool :=
  has_tag o "ObjectID" || has_tag o "PresetID" || has_tag o "NMS_LIGHT"
  || has_tag o "base_builder_item".

Lemma new_file_select_spec (o : Obj) :
  tags (new_file_select o) = tags o /\
  select (new_file_select o) = (new_file_marked o || select o).
Proof.
  unfold new_file_select, new_file_marked, has_tag.
  destruct (bool_decide ("ObjectID" ∈ dom (tags o)));
    cbn [tags select set_select set_hide_select set_hide_viewport];
    destruct (bool_decide ("PresetID" ∈ dom (tags o)));
    cbn [tags select set_select set_hide_select set_hide_viewport];
    destruct (bool_decide ("NMS_LIGHT" ∈ dom (tags o)));
    cbn [tags select set_select set_hide_select set_hide_viewport];
    destruct (bool_decide ("base_builder_item" ∈ dom (tags o)));
    cbn [tags select set_select set_hide_select set_hide_viewport orb];
    split; reflexivity.
Qed.

(** In a scene of visible and selectable objects, no object that carries
    one of these four tags is left. *)
Lemma new_file_removes_marked (self : NMSSettings) (pb : PartBuilder) (sc : scene) (o : Obj) :
  (forall o' : Obj, o' ∈ sc ->
     hide o' = false /\ hide_viewport o' = false /\ hide_select o' = false) ->
  o ∈ (new_file self pb sc).2 -> new_file_marked o = false.
Proof.
  intros _. simpl. unfold delete_selected. rewrite list_elem_of_filter.
  intros [Hsel Hin]. apply list_elem_of_fmap in Hin as (o1 & -> & Hin).
  destruct (new_file_select_spec o1) as [Ht Hs]. rewrite Hs in Hsel.
  apply orb_false_elim in Hsel as [Hm _].
  unfold new_file_marked, has_tag in *. by rewrite Ht.
Qed.

(** An object that carries none of them stays, deselected. *)
Lemma new_file_keeps_unmarked (self : NMSSettings) (pb : PartBuilder) (sc : scene) (o : Obj) :
  o ∈ sc -> new_file_marked o = false ->
  set_select o false ∈ (new_file self pb sc).2.
Proof.
  intros Hin Hm. simpl. unfold delete_selected. apply list_elem_of_filter.
  assert (Hm' : new_file_marked (set_select o false) = false) by done.
  assert (Heq : new_file_select (set_select o false) = set_select o false).
  { unfold new_file_select. unfold new_file_marked in Hm'.
    repeat (apply orb_false_elim in Hm' as [Hm' ?]).
    by repeat match goal with Hx : has_tag _ _ = false |- _ => rewrite Hx; clear Hx end. }
  split.
  - done.
  - apply list_elem_of_fmap. exists (set_select o false). split; [done|].
    unfold deselect_all. apply list_elem_of_fmap. by exists o.
Qed.
End SettingsClaims.

(** ** part_overrides/messagemodule.py *)

Section MessageClaims.
Context `{Collab}.

(** C8.  For a part id registered to the message-bearing variant:
    when the base part serialises, the serialisation is the base
    dictionary with a ["Message"] field that holds the stored message,
    the empty text if none was set; when the base part is rebuilt from
    the data, the result is that part with its message set to the text
    of the ["Message"] field of the data, the empty text if the data has
    no such field. *)
Theorem message_module_contract (registry : gmap string part_class) (object_id : string)
    (self : Obj) (data base_data : pydict) (args : list value) (base_part : Obj) :
  registry !! object_id = Some MessageBearing ->
  (Part_serialise self = Ok base_data ->
   exists d,
     serialise_by_id registry object_id self = Ok d /\
     dict_get d "Message" = Some (default (PStr "") (tags self !! "Message")) /\
     (tags self !! "Message" = None -> dict_get d "Message" = Some (PStr "")) /\
     (forall k, k <> "Message" -> dict_get d k = dict_get base_data k)) /\
  (Part_deserialise_from_data data args = Ok base_part ->
   exists part,
     deserialise_by_id registry object_id data args = Ok part /\
     part = set_message base_part (dict_get_default data "Message" (PStr "")) /\
     message part = PStr (py_str (dict_get_default data "Message" (PStr ""))) /\
     (forall text, dict_get data "Message" = Some (PStr text) -> message part = PStr text) /\
     (dict_get data "Message" = None -> message part = PStr "")).
Proof.
  intros Hreg. split.
  - intros Hbase. unfold serialise_by_id, MESSAGEMODULE_serialise.
    rewrite Hreg, Hbase. simpl. eexists. split; [done|].
    split; [by rewrite dict_get_set_eq|]. split.
    + intros Hno. by rewrite dict_get_set_eq; unfold message; rewrite Hno.
    + intros k Hk. by rewrite dict_get_set_ne.
  - intros Hbase. unfold deserialise_by_id, MESSAGEMODULE_deserialise_from_data.
    rewrite Hreg, Hbase. simpl. eexists. split; [done|]. split; [done|].
    assert (Hm : forall v, message (set_message base_part v) = PStr (py_str v)).
    { intros v. unfold message, set_message, set_tag. simpl. by rewrite lookup_insert_eq. }
    split; [apply Hm|]. split.
    + intros text Ht. rewrite Hm. unfold dict_get_default. by rewrite Ht.
    + intros Hno. rewrite Hm. unfold dict_get_default. by rewrite Hno.
Qed.
End MessageClaims.

(** * The properties on concrete scenes *)

(** Closes [a = b] by evaluating [a] with the virtual machine; the type of
    the equation, which mentions the host, is left alone. *)
Ltac evaluate :=
  match goal with
  | |- ?a = ?b => exact (@eq_refl _ b <: a = b)
  end.

Section Checks.
Import Concrete.
#[local] Existing Instance Q_host.
#[local] Existing Instance Q_collab.

(** C4 as stated fails: an object that carries the object id, and no
    timestamp, is not serialised when [is_preset] is false. *)
Lemma get_part_data_fields_counterexample :
  tags bare_part !! "objectID" = Some (PStr "CUBE") /\
  get_part_data bare_part false = Err (KeyError "Timestamp") /\
  forall data, get_part_data bare_part false <> Ok data.
Proof.
  assert (He : get_part_data bare_part false = Err (KeyError "Timestamp"))
    by evaluate.
  split; [evaluate|]. split; [exact He|].
  intros data Hd. rewrite He in Hd. discriminate Hd.
Qed.

(** [get_part_data_fields] on a part that carries the three tags. *)
Lemma get_part_data_fields_witness :
  tags full_part !! "objectID" = Some (PStr "CUBE") /\
  (false = false ->
   tags full_part !! "Timestamp" = Some (PInt 1539023700) /\
   py_int (PInt 1539023700) = Ok 1539023700 /\
   tags full_part !! "UserData" = Some (PInt 0) /\
   py_int (PInt 0) = Ok 0) /\
  exists data,
    get_part_data full_part false = Ok data /\
    dict_get data "ObjectID" = Some (PStr "^CUBE") /\
    dict_has data "Timestamp" = true /\
    dict_get data "UserData" = Some (PInt 0).
Proof.
  assert (H1 : tags full_part !! "objectID" = Some (PStr "CUBE"))
    by evaluate.
  assert (H2 : false = false ->
               tags full_part !! "Timestamp" = Some (PInt 1539023700) /\
               py_int (PInt 1539023700) = Ok 1539023700 /\
               tags full_part !! "UserData" = Some (PInt 0) /\
               py_int (PInt 0) = Ok 0)
    by (intros _; repeat split; evaluate).
  split; [exact H1|]. split; [exact H2|].
  destruct (get_part_data_fields full_part false (PStr "CUBE") (PInt 1539023700) (PInt 0)
              1539023700 0 H1 H2)
    as (data & Hd & Hid & _ & _ & _ & Hts & _ & Hint).
  exists data. split; [exact Hd|]. split; [exact Hid|]. split; [exact Hts|].
  exact (proj2 (Hint eq_refl)).
Defined.

(** [get_all_nms_objects_untagged_raises] on a scene with a lamp. *)
Lemma get_all_nms_objects_untagged_raises_witness :
  lamp_object ∈ [full_part; lamp_object] /\
  tags lamp_object !! "belongs_to_preset" = None /\
  get_all_nms_objects [full_part; lamp_object] true = Err (KeyError "belongs_to_preset").
Proof.
  assert (H1 : lamp_object ∈ [full_part; lamp_object])
    by (apply list_elem_of_further, list_elem_of_here).
  assert (H2 : tags lamp_object !! "belongs_to_preset" = None)
    by evaluate.
  split; [exact H1|]. split; [exact H2|].
  exact (get_all_nms_objects_untagged_raises [full_part; lamp_object] lamp_object H1 H2).
Defined.

(** [retrieve_part_cache_branch]: after some calls on a new builder, and
    on a builder whose cache would hold the part. *)
Lemma retrieve_part_cache_branch_witness :
  (let st := builder_run
               [CallBuildItem "CUBE" default_timestamp default_userdata
                  default_position default_up default_at;
                CallClearCache; CallRetrievePart "WALL"]
               (PartBuilder_init ∅ ∅ "models" [], [bare_part]) in
   part_cache st.1 = ∅ /\
   retrieve_part st.1 st.2 "CUBE" = retrieve_new st.1 st.2 "CUBE") /\
  part_cache cached_builder !! "CUBE" = Some bare_part /\
  name bare_part ∈ name <$> [bare_part] /\
  retrieve_part cached_builder [bare_part] "CUBE" = Err (UnboundLocalError "item").
Proof.
  assert (H1 : part_cache cached_builder !! "CUBE" = Some bare_part)
    by evaluate.
  assert (H2 : name bare_part ∈ name <$> [bare_part]) by apply list_elem_of_here.
  split; [|split; [exact H1|split; [exact H2|]]].
  - exact (proj1 retrieve_part_cache_branch ∅ ∅ "models" [] [bare_part]
             [CallBuildItem "CUBE" default_timestamp default_userdata
                default_position default_up default_at;
              CallClearCache; CallRetrievePart "WALL"] "CUBE").
  - exact (proj2 retrieve_part_cache_branch cached_builder [bare_part] "CUBE" bare_part
             H1 H2).
Defined.

(** [generate_data_document] on the scene that holds [full_part]. *)
Lemma generate_data_document_witness :
  get_all_part_data [full_part] true = Ok saved_objects /\
  (true = true -> get_all_preset_data [full_part] = Ok []) /\
  exists data,
    generate_data settings [full_part] true = Ok data /\
    dict_get data "BaseVersion" = Some (PInt 4) /\
    dict_get data "GalacticAddress" = Some (PInt 12345) /\
    dict_get data "LastUpdateTimestamp" = Some (PStr "not set") /\
    dict_get data "Objects" = Some (PList saved_objects) /\
    dict_has data "Presets" = true.
Proof.
  assert (H1 : get_all_part_data [full_part] true = Ok saved_objects) by evaluate.
  assert (H2 : true = true -> get_all_preset_data [full_part] = Ok [])
    by (intros _; reflexivity).
  split; [exact H1|]. split; [exact H2|].
  destruct (generate_data_document settings [full_part] true saved_objects [] H1 H2)
    as (data & owner & Hd & Hv & _ & _ & _ & _ & Ha & Hl & _ & _ & Ho & Hp & _).
  exists data. split; [exact Hd|]. split; [exact Hv|]. split; [exact Ha|].
  split; [exact Hl|]. split; [exact Ho|]. exact Hp.
Defined.

(** [snap_objects_without_pairing]: the target part is in no snap
    group; the source starts away from the target. *)
Lemma snap_objects_without_pairing_witness :
  let source := set_matrix_world (snap_part "src" "A") (translation (5, 0, 0)%Q) in
  let target := snap_part "tgt" "Z" in
  tags source !! "SnapID" = Some (PStr "A") /\
  tags target !! "SnapID" = Some (PStr "Z") /\
  pairing_entry snapper (get_snap_group_from_part snapper (PStr "Z"))
                        (get_snap_group_from_part snapper (PStr "A")) = None /\
  exists out,
    snap_objects snapper source target false false false false = Ok out /\
    returned out = (if has_tag target "PresetID" then RNone else RBool false) /\
    matrix_world (source_after out) = matrix_world target /\
    tags (source_after out) = tags source /\
    snapper_after out = snapper.
Proof.
  intros source target.
  assert (H1 : tags source !! "SnapID" = Some (PStr "A")) by evaluate.
  assert (H2 : tags target !! "SnapID" = Some (PStr "Z")) by evaluate.
  assert (H3 : pairing_entry snapper (get_snap_group_from_part snapper (PStr "Z"))
                 (get_snap_group_from_part snapper (PStr "A")) = None) by evaluate.
  split; [exact H1|]. split; [exact H2|]. split; [exact H3|].
  exact (snap_objects_without_pairing snapper source target false false false false
           (PStr "A") (PStr "Z") H1 H2 H3).
Defined.

(** C7 as stated fails: parts [A] and [B] share the snap group [G]
    and a next-target step is asked for; the target key becomes [q],
    whose declared opposite is [s], and the source key is [r], the
    default of the pairing. *)
Lemma resolve_source_key_counterexample :
  get_snap_group_from_part snapper (PStr "A") = Some "G" /\
  get_snap_group_from_part snapper (PStr "B") = Some "G" /\
  resolve_target_key ∅ (Some group_points) (pairing_options "p, q") true false = Some "q" /\
  opposite <$> dict_get group_points "q" = Some (Some "s") /\
  resolve_source_key ∅ (Some group_points) (Some group_points) (Some "q")
    (pairing_options "r, s") (PStr "A") (PStr "B") false false true false
  = Ok (Some "r") /\
  (out ← snap_objects snapper (snap_part "src" "A") (snap_part "tgt" "B")
           false false true false;
   Ok (returned out, snap_cache (snapper_after out) !! "src" ≫= (.!! "source")))
  = Ok (RBool true, Some (Some "r")).
Proof. repeat split; evaluate. Qed.

(** [resolve_source_key_cases]: source and target both have the id [A]
    and a next-target step is asked for. *)
Lemma resolve_source_key_cases_witness :
  truthy_points (Some group_points) = true /\
  (id_eq (PStr "A") (PStr "A") = true ->
   point_getitem (Some group_points) (Some "q") = Ok (unit_point 2 (Some "s"))) /\
  resolve_source_key ∅ (Some group_points) (Some group_points) (Some "q")
    (pairing_options "r, s") (PStr "A") (PStr "A") false false true false
  = Ok (Some "s").
Proof.
  assert (H1 : truthy_points (Some group_points) = true) by reflexivity.
  assert (H2 : id_eq (PStr "A") (PStr "A") = true ->
               point_getitem (Some group_points) (Some "q")
               = Ok (unit_point 2 (Some "s"))) by (intros _; evaluate).
  split; [exact H1|]. split; [exact H2|].
  exact (resolve_source_key_cases ∅ (Some group_points) (Some group_points) (Some "q")
           (pairing_options "r, s") (PStr "A") (PStr "A") false false true false
           (unit_point 2 (Some "s")) H1 H2).
Defined.

(** [message_module_contract] on a part whose id is registered. *)
Lemma message_module_contract_witness :
  registry !! "MESSAGEMODULE" = Some MessageBearing /\
  Part_serialise message_part = Ok [("ObjectID", PStr "^MESSAGEMODULE")] /\
  Part_deserialise_from_data message_data []
  = Ok (set_tag (fresh_object "Cube") "ObjectID" (PStr "^MESSAGEMODULE")) /\
  (exists d,
     serialise_by_id registry "MESSAGEMODULE" message_part = Ok d /\
     dict_get d "Message" = Some (PStr "hello")) /\
  (exists part,
     deserialise_by_id registry "MESSAGEMODULE" message_data [] = Ok part /\
     message part = PStr "hello").
Proof.
  assert (H1 : registry !! "MESSAGEMODULE" = Some MessageBearing) by evaluate.
  assert (H2 : Part_serialise message_part = Ok [("ObjectID", PStr "^MESSAGEMODULE")])
    by evaluate.
  assert (H3 : Part_deserialise_from_data message_data []
               = Ok (set_tag (fresh_object "Cube") "ObjectID" (PStr "^MESSAGEMODULE")))
    by evaluate.
  assert (H4 : default (PStr "") (tags message_part !! "Message") = PStr "hello")
    by evaluate.
  split; [exact H1|]. split; [exact H2|]. split; [exact H3|].
  destruct (message_module_contract registry "MESSAGEMODULE" message_part message_data
              [("ObjectID", PStr "^MESSAGEMODULE")] []
              (set_tag (fresh_object "Cube") "ObjectID" (PStr "^MESSAGEMODULE")) H1)
    as [Hs Hd].
  split.
  - destruct (Hs H2) as (d & Hser & Hmsg & _). exists d. split; [exact Hser|].
    rewrite Hmsg. exact (f_equal Some H4).
  - destruct (Hd H3) as (part & Hde & _ & _ & Htext & _). exists part.
    split; [exact Hde|]. apply Htext. reflexivity.
Defined.

(** C3 on a concrete scene.  The part [build_item] makes in an empty
    scene is still in the scene after [new_file], with its ["objectID"]
    tag: [new_file] looks for ["ObjectID"]. *)
Theorem new_file_keeps_built_part :
  build_item builder [] "CUBE" default_timestamp default_userdata
    default_position default_up default_at = Ok (0%nat, [built_part]) /\
  (new_file settings builder [built_part]).2 = [set_select built_part false] /\
  tags (set_select built_part false) !! "objectID" = Some (PStr "CUBE").
Proof. repeat split; evaluate. Qed.
End Checks.

(** * Further properties *)

(** ** parts.py: what [build_light] and [build_item] make *)

Section BuildFacts.
Context `{Collab}.

Lemma set_select_same (o : Obj) : set_select o (select o) = o.
Proof. by destruct o. Qed.

Lemma deselect_all_idem (sc : scene) : deselect_all (deselect_all sc) = deselect_all sc.
Proof.
  unfold deselect_all. rewrite <- list_fmap_compose. by apply list_fmap_ext.
Qed.

Lemma deselect_all_take (n : nat) (sc : scene) :
  take n (deselect_all sc) = deselect_all (take n sc).
Proof. unfold deselect_all. by rewrite fmap_take. Qed.

Lemma deselect_all_app (sc1 sc2 : scene) :
  deselect_all (sc1 ++ sc2)%list = (deselect_all sc1 ++ deselect_all sc2)%list.
Proof. unfold deselect_all. by rewrite fmap_app. Qed.

Lemma length_deselect_all (sc : scene) : length (deselect_all sc) = length sc.
Proof. unfold deselect_all. by rewrite length_fmap. Qed.

(** The objects that were in the scene are deselected and otherwise as
    they were; the lamps come after them. *)
Lemma build_lights_from_app item_name ls : forall idx (sc : scene),
  exists lamps : scene,
    length lamps = length ls /\
    build_lights_from item_name idx ls sc
    = ((if ls is [] then sc else deselect_all sc) ++ lamps)%list /\
    forall k key lv, ls !! k = Some (key, lv) ->
      exists lamp, lamps !! k = Some lamp /\
                   set_select lamp true = make_light item_name (idx + k) lv.
Proof.
  induction ls as [|[key0 lv0] ls IH]; intros idx sc; simpl.
  - exists []. split; [done|]. split; [by rewrite app_nil_r|]. intros k key lv Hk. done.
  - destruct (IH (S idx) (add_objects sc [make_light item_name idx lv0]))
      as (lamps & Hlen & Heq & Hlamps).
    destruct ls as [|e ls].
    + exists [make_light item_name idx lv0]. split; [done|]. split.
      * simpl in Heq. destruct lamps; [|done]. by rewrite app_nil_r in Heq.
      * intros [|k] key lv Hk; [|done]. injection Hk as <- <-.
        eexists. split; [done|]. by rewrite Nat.add_0_r.
    + exists (set_select (make_light item_name idx lv0) false :: lamps).
      split; [simpl; by rewrite Hlen|]. split.
      * rewrite Heq. unfold add_objects. rewrite deselect_all_app, deselect_all_idem.
        by rewrite <- app_assoc.
      * intros [|k] key lv Hk.
        -- injection Hk as <- <-. eexists. split; [done|]. by rewrite Nat.add_0_r.
        -- destruct (Hlamps k key lv Hk) as (lamp & Hl & Hs).
           exists lamp. split; [done|]. by rewrite Hs, Nat.add_succ_r.
Qed.


Lemma names_deselect_all (sc : scene) : name <$> deselect_all sc = name <$> sc.
Proof. unfold deselect_all. rewrite <- list_fmap_compose. by apply list_fmap_ext. Qed.

Lemma names_fresh (ns : list string) : name <$> (fresh_object <$> ns) = ns.
Proof. induction ns as [|n ns IH]; [done|]. rewrite !fmap_cons. by rewrite IH. Qed.

(** No light is listed for the part: [build_light] then adds nothing and
    leaves the selection as it is. *)
Definition unlit (pb : PartBuilder) (part : string) : bool :=
  match lights_dictionary pb !! part with
  | Some (_ :: _) => false
  | _ => true
  end.

Lemma build_light_cases (pb : PartBuilder) (i : nat) (sc : scene) (item : Obj)
    (object_id : string) :
  sc !! i = Some item ->
  tags item !! "objectID" = Some (PStr object_id) ->
  exists lamps : scene,
    build_light pb i sc
    = ((if unlit pb object_id then sc else deselect_all sc) ++ lamps)%list.
Proof.
  intros Hi Hid. unfold build_light, unlit. rewrite Hi, Hid.
  destruct (lights_dictionary pb !! object_id) as [ls|];
    [|exists []; by rewrite app_nil_r].
  destruct (build_lights_from_app (name item) ls 0 sc) as (lamps & _ & Heq & _).
  exists lamps. rewrite Heq. by destruct ls.
Qed.

(** The names of the objects that the OBJ import of a part creates beside
    the part itself. *)
Definition imported_beside (pb : PartBuilder) (part : string) : list string :=
  let obj_path := default "" (get_obj_path pb part) in
  if isfile obj_path then tail (import_obj obj_path) else [].

(** The name the host gives the part built into the scene [sc]. *)
Definition part_name_in (pb : PartBuilder) (sc : scene) (part : string) : string :=
  unique_name ((name <$> sc) ++ imported_beside pb part)%list part.

Lemma rename_new (sc : scene) (o : Obj) (rest : scene) (n : string) :
  rename (deselect_all sc ++ o :: rest)%list (length sc) n
  = (deselect_all sc
     ++ set_name o (unique_name ((name <$> sc) ++ (name <$> rest))%list n) :: rest)%list.
Proof.
  unfold rename.
  rewrite (take_app_length' (deselect_all sc)) by (by rewrite length_deselect_all).
  rewrite (drop_app_ge (deselect_all sc)) by (rewrite length_deselect_all; lia).
  rewrite length_deselect_all.
  replace (S (length sc) - length sc)%nat with 1%nat by lia. cbn [drop].
  rewrite drop_0, fmap_app, names_deselect_all.
  replace (length sc) with (length (deselect_all sc) + 0)%nat
    by (rewrite length_deselect_all; lia).
  by rewrite alter_app_r.
Qed.

Lemma alter_new (f : Obj -> Obj) (sc : scene) (o : Obj) (rest : scene) :
  alter f (length sc) (deselect_all sc ++ o :: rest)%list
  = (deselect_all sc ++ f o :: rest)%list.
Proof.
  replace (length sc) with (length (deselect_all sc) + 0)%nat
    by (rewrite length_deselect_all; lia).
  by rewrite alter_app_r.
Qed.

Lemma lookup_after_deselect_all (sc rest : scene) (o : Obj) :
  (deselect_all sc ++ o :: rest)%list !! length sc = Some o.
Proof.
  rewrite lookup_app_r by (rewrite length_deselect_all; lia).
  by rewrite length_deselect_all, Nat.sub_diag.
Qed.

(** What [retrieve_new] returns is a new object at the end of the former
    scene, named by the host after the part, whose only tag is the object
    id; it is still selected exactly when no light was built. *)
Lemma retrieve_new_shape (pb : PartBuilder) (sc : scene) (part_name : string)
    (item : nat) (sc' : scene) :
  retrieve_new pb sc part_name = Ok (item, sc') ->
  item = length sc /\
  exists rest : scene,
    sc' = (deselect_all sc
           ++ set_select
                (set_tag (fresh_object (part_name_in pb sc part_name))
                   "objectID" (PStr part_name))
                (unlit pb part_name) :: rest)%list.
Proof.
  unfold retrieve_new, part_name_in, imported_beside. intros Hr.
  assert (Hgen : forall (n : string) (ns : list string),
             exists rest : scene,
               build_light pb (length sc)
                 (alter (fun o => set_tag o "objectID" (PStr part_name)) (length sc)
                    (rename (add_objects sc (fresh_object <$> n :: ns)) (length sc) part_name))
               = (deselect_all sc
                  ++ set_select
                       (set_tag (fresh_object (unique_name ((name <$> sc) ++ ns)%list part_name))
                          "objectID" (PStr part_name))
                       (unlit pb part_name) :: rest)%list).
  { intros n ns. unfold add_objects. rewrite fmap_cons, rename_new, alter_new, names_fresh.
    set (new := set_tag (set_name (fresh_object n) _) "objectID" (PStr part_name)).
    destruct (build_light_cases pb (length sc)
                (deselect_all sc ++ new :: (fresh_object <$> ns))%list new part_name)
      as (lamps & ->); [apply lookup_after_deselect_all|apply lookup_insert_eq|].
    destruct (unlit pb part_name).
    - exists ((fresh_object <$> ns) ++ lamps)%list. by rewrite <- app_assoc.
    - exists (deselect_all (fresh_object <$> ns) ++ lamps)%list.
      rewrite deselect_all_app, deselect_all_idem. by rewrite <- app_assoc. }
  destruct (isfile _).
  - destruct (import_obj _) as [|n ns] eqn:Hi; [done|].
    cbn [mbind result_bind] in Hr. injection Hr as <- <-. split; [done|]. apply Hgen.
  - cbn [mbind result_bind] in Hr. injection Hr as <- <-. split; [done|].
    destruct (Hgen "Cube" []) as (rest & Heq). exists rest. exact Heq.
Qed.

(** The object [build_item] hands to [material.assign_material]: named
    [n], with the three tags, its scale locked on the three axes, its
    location and rotation locked exactly when the id is ["BASE_FLAG"], at
    the origin, visible. *)
Definition new_part (n part : string) (timestamp : value) (selected : bool) : Obj :=
  let locked := if String.eqb part "BASE_FLAG" then (true, true, true)
                else (false, false, false) in
  mkObj n
    (<["belongs_to_preset" := PBool false]>
       (<["Timestamp" := timestamp]> {["objectID" := PStr part]}))
    Matrix_Identity (true, true, true) locked locked selected false false false
    None None None.

(** The object [build_item] leaves at the position it returns:
    [material.assign_material] has been applied to [new_part] with the
    user data as colour index, then the transform [m] of [utils.move_to]
    set and the object selected. *)
Definition built_object (n part : string) (timestamp userdata : value) (selected : bool)
    (m : Matrix) : Obj :=
  set_select
    (set_matrix_world (assign_material (new_part n part timestamp selected) userdata None) m)
    true.

(** An object of the former scene is still there, up to its selection. *)
Definition kept (sc sc' : scene) : Prop :=
  forall j o, sc !! j = Some o ->
    exists o', sc' !! j = Some o' /\ set_select o' true = set_select o true.



Lemma kept_deselect_app (sc rest : scene) : kept sc (deselect_all sc ++ rest)%list.
Proof.
  intros j o Hj. exists (set_select o false). split; [|done].
  apply lookup_app_l_Some. unfold deselect_all. by rewrite list_lookup_fmap, Hj.
Qed.

(** The scene [build_item] leaves: the former objects, deselected, then
    the new part, then what the import and the lights added. *)
Lemma build_item_scene (pb : PartBuilder) (sc : scene) (part : string)
    (timestamp userdata position up_vec at_vec : value) (item : nat) (sc' : scene) :
  build_item pb sc part timestamp userdata position up_vec at_vec = Ok (item, sc') ->
  item = length sc /\
  exists (m : Matrix) (rest : scene),
    move_to_matrix position up_vec at_vec = Ok m /\
    sc' = (deselect_all sc
           ++ built_object (part_name_in pb sc part) part timestamp userdata
                (unlit pb part) m :: rest)%list.
Proof.
  unfold build_item. intros Hb.
  destruct (retrieve_part pb sc part) as [[i sc1]|] eqn:Hr; [|done].
  apply retrieve_part_new, retrieve_new_shape in Hr as (-> & rest & ->).
  cbn [mbind result_bind] in Hb. unfold move_to in Hb.
  destruct (move_to_matrix position up_vec at_vec) as [m|]; [|done].
  cbn [mbind result_bind] in Hb. injection Hb as <- <-. split; [done|].
  exists m, rest. split; [done|].
  unfold built_object, new_part.
  destruct (String.eqb part "BASE_FLAG"); rewrite !alter_new; do 2 f_equal;
    unfold set_tag, fresh_object; cbn;
    by rewrite insert_insert_eq, insert_empty.
Qed.


End BuildFacts.

(** ** parts.py: building the parts of a document *)

Section ImportFacts.
Context `{Collab}.

(** The part that [build_parts_from_dict] made for an entry of the
    document is at [idx] in the scene: the entry is a dictionary with the
    six keys, and the object is, up to its selection, the object
    [build_item] makes for the id without its carets, under a name the
    host gave for that id. *)
Definition entry_built (pb : PartBuilder) (sc : scene) (idx : nat) (entry : value) : Prop :=
  exists (d : pydict) (id : string) (ts ud pos up at_ : value) (m : Matrix)
         (others : list string) (o : Obj),
    entry = PDict d /\
    dict_get d "ObjectID" = Some (PStr id) /\
    dict_get d "Timestamp" = Some ts /\
    dict_get d "UserData" = Some ud /\
    dict_get d "Position" = Some pos /\
    dict_get d "Up" = Some up /\
    dict_get d "At" = Some at_ /\
    move_to_matrix pos up at_ = Ok m /\
    sc !! idx = Some o /\
    set_select o true
    = built_object (unique_name others (remove_caret id)) (remove_caret id) ts ud
        (unlit pb (remove_caret id)) m.

Lemma dict_getitem_Ok {V : Type} (d : list (string * V)) (k : string) (v : V) :
  dict_getitem d k = Ok v -> dict_get d k = Some v.
Proof. unfold dict_getitem. destruct (dict_get d k); by intros [= ->]. Qed.

Lemma build_part_from_entry_shape (pb : PartBuilder) (parts : list nat) (sc : scene)
    (entry : value) (parts' : list nat) (sc' : scene) :
  build_part_from_entry pb (parts, sc) entry = Ok (parts', sc') ->
  parts' = (parts ++ [length sc])%list /\
  (length sc < length sc')%nat /\
  kept sc sc' /\
  entry_built pb sc' (length sc) entry.
Proof.
  unfold build_part_from_entry. intros Hb.
  destruct entry as [| | | | |l|d]; try done. simpl in Hb.
  destruct (dict_getitem d "ObjectID") as [oid|] eqn:Hoid; [|done]. simpl in Hb.
  destruct oid as [| | | |id| |]; try done. simpl in Hb.
  destruct (dict_getitem d "Timestamp") as [ts|] eqn:Hts; [|done]. simpl in Hb.
  destruct (dict_getitem d "UserData") as [ud|] eqn:Hud; [|done]. simpl in Hb.
  destruct (dict_getitem d "Position") as [pos|] eqn:Hpos; [|done]. simpl in Hb.
  destruct (dict_getitem d "Up") as [up|] eqn:Hup; [|done]. simpl in Hb.
  destruct (dict_getitem d "At") as [at_|] eqn:Hat; [|done]. simpl in Hb.
  destruct (build_item pb sc (remove_caret id) ts ud pos up at_) as [[item sc1]|] eqn:Hbi;
    [|done].
  simpl in Hb. injection Hb as <- <-.
  apply build_item_scene in Hbi as (-> & m & rest & Hm & ->).
  split; [done|]. split; [rewrite length_app, length_deselect_all; simpl; lia|].
  split; [apply kept_deselect_app|].
  exists d, id, ts, ud, pos, up, at_, m,
    ((name <$> sc) ++ imported_beside pb (remove_caret id))%list,
    (built_object (part_name_in pb sc (remove_caret id)) (remove_caret id) ts ud
       (unlit pb (remove_caret id)) m).
  repeat split; try (by apply dict_getitem_Ok); try done.
  apply lookup_after_deselect_all.
Qed.





(** A loop whose body raises on one element of the list raises. *)
Lemma foldM_fails_at {A S : Type} (f : S -> A -> result S) (l : list A) (x : A) :
  x ∈ l -> (forall st, is_Ok (f st x) = false) ->
  forall st, is_Ok (foldM f l st) = false.
Proof.
  intros Hin Hx. induction l as [|y l IH]; [by apply elem_of_nil in Hin|].
  intros st. cbn [foldM]. apply elem_of_cons in Hin as [<- | Hin].
  - specialize (Hx st). by destruct (f st x).
  - destruct (f st y) as [st'|]; [|done]. cbn [mbind result_bind]. by apply IH.
Qed.

(** X4.  An entry of ["Objects"] that is not a dictionary, or that lacks
    one of the six keys ["ObjectID"], ["Timestamp"], ["UserData"],
    ["Position"], ["Up"], ["At"], is never skipped: the whole call
    raises. *)
Theorem build_parts_from_dict_incomplete (pb : PartBuilder) (sc : scene) (data : pydict)
    (entries : list value) (entry : value) :
  dict_get data "Objects" = Some (PList entries) ->
  entry ∈ entries ->
  (forall d, entry = PDict d ->
     exists key, key ∈ ["ObjectID"; "Timestamp"; "UserData"; "Position"; "Up"; "At"] /\
                 dict_get d key = None) ->
  is_Ok (build_parts_from_dict pb sc data) = false.
Proof.
  intros Hd Hin Hbad. unfold build_parts_from_dict. rewrite Hd.
  assert (Hstep : forall st, is_Ok (build_part_from_entry pb st entry) = false).
  { intros [ps s0].
    destruct (build_part_from_entry pb (ps, s0) entry) as [[ps1 s1]|] eqn:He; [|done].
    apply build_part_from_entry_shape in He as (_ & _ & _ & Hb).
    destruct Hb as (d & id & ts & ud & pos & up & at_ & m & others & o & -> & H1 & H2 & H3
                    & H4 & H5 & H6 & _).
    destruct (Hbad d eq_refl) as (key & Hkey & Hnone).
    repeat (apply elem_of_cons in Hkey as [-> | Hkey]; [congruence|]).
    by apply elem_of_nil in Hkey. }
  pose proof (foldM_fails_at (build_part_from_entry pb) entries entry Hin Hstep ([], sc))
    as Hfold.
  by destruct (foldM (build_part_from_entry pb) entries ([], sc)) as [[]|].
Qed.
End ImportFacts.

(** ** __init__.py: [new_file] and [toggle_room_visibility] *)

Section NewFileFacts.
Context `{Collab}.



End NewFileFacts.

Section ToggleFacts.
Context `{Collab} `{!FloatLiteral}.

Lemma Z_in_nil (n : Z) : Z_in n [] = false.
Proof. unfold Z_in. apply bool_decide_eq_false_2, not_elem_of_nil. Qed.

Lemma Z_in_cons (n a : Z) (l : list Z) : Z_in n (a :: l) = Z.eqb n a || Z_in n l.
Proof.
  unfold Z_in. destruct (Z.eqb_spec n a) as [->|Hne]; simpl.
  - apply bool_decide_eq_true_2, list_elem_of_here.
  - apply bool_decide_ext. rewrite elem_of_cons. split; [by intros [?|?]|by right].
Qed.

(** The objects the loop of [toggle_room_visibility] acts on: those whose
    ["ObjectID"] is one of the ghosted ids. *)
Definition ghosted (invisible_objects : list string) (ob : Obj) : bool :=
  match tags ob !! "ObjectID" with
  | Some object_id => id_in object_id invisible_objects
  | None => false
  end.

(** X6.  From a state in 0..3, [toggle_room_visibility] moves to the next
    state cyclically.  In the new state: the shading is "MATERIAL" with
    the scene lights on exactly in state 3 and "SOLID" otherwise; the
    alpha of every material is 0.07 exactly in state 1; an object whose
    ["ObjectID"] is ghosted is deselected, is hidden exactly in state 2
    and, unless its ["is_preset"] is true, cannot be selected exactly in
    state 1; every other object is as it was. *)
Theorem toggle_room_visibility_states (invisible_objects : list string)
    (self : NMSSettings) (view : viewport) (sc : scene) :
  0 <= room_vis_switch self <= 3 ->
  let out := toggle_room_visibility invisible_objects self view sc in
  let n := room_vis_switch out.1.1 in
  n = (room_vis_switch self + 1) mod 4 /\
  shading_type out.1.2 = (if Z.eqb n 3 then "MATERIAL" else "SOLID") /\
  render_engine out.1.2 = "BLENDER_EEVEE" /\
  use_scene_lights out.1.2 = Z.eqb n 3 /\
  material_alpha out.1.2
  = (fun _ => if Z.eqb n 1 then float_of_Q (7 # 100) else float_of_Z 1)
    <$> material_alpha view /\
  forall (i : nat) (ob : Obj), sc !! i = Some ob ->
    if ghosted invisible_objects ob then
      exists ob',
        out.2 !! i = Some ob' /\
        set_hide_select (set_hide_viewport (set_select ob' (select ob)) (hide_viewport ob))
          (hide_select ob) = ob /\
        select ob' = false /\
        hide_viewport ob' = Z.eqb n 2 /\
        hide_select ob'
        = (if py_truthy (default (PBool false) (tags ob !! "is_preset"))
           then hide_select ob else Z.eqb n 1)
    else out.2 !! i = Some ob.
Proof.
  intros Hn out n.
  assert (Hob : forall (hidden flag : bool) (i : nat) (ob : Obj), sc !! i = Some ob ->
            if ghosted invisible_objects ob then
              exists ob',
                (toggle_object invisible_objects hidden flag <$> sc) !! i = Some ob' /\
                set_hide_select (set_hide_viewport (set_select ob' (select ob))
                  (hide_viewport ob)) (hide_select ob) = ob /\
                select ob' = false /\
                hide_viewport ob' = hidden /\
                hide_select ob'
                = (if py_truthy (default (PBool false) (tags ob !! "is_preset"))
                   then hide_select ob else flag)
            else (toggle_object invisible_objects hidden flag <$> sc) !! i = Some ob).
  { intros hidden flag i ob Hi. rewrite list_lookup_fmap, Hi. simpl.
    unfold ghosted, toggle_object.
    destruct (tags ob !! "ObjectID") as [object_id|]; [|done].
    destruct (id_in object_id invisible_objects); [|done].
    eexists. split; [reflexivity|].
    destruct ob. by destruct (py_truthy _). }
  subst out n. unfold toggle_room_visibility, next_room_vis.
  rewrite !Z_in_cons, !Z_in_nil.
  assert (Hcases : room_vis_switch self = 0 \/ room_vis_switch self = 1 \/
                   room_vis_switch self = 2 \/ room_vis_switch self = 3) by lia.
  destruct Hcases as [-> | [-> | [-> | ->]]];
    cbn -[toggle_object float_of_Q float_of_Z];
    (repeat (split; [reflexivity|])); apply Hob.
Qed.
End ToggleFacts.

(** ** __init__.py: the base record *)

Section BaseRecordFacts.
Context `{Collab}.




(** The text a field holds after its value went through
    [try: int(text) except: text] and back through [str]. *)
Definition reread (text : string) : string :=
  match int_of_str text with
  | Some n => str_of_int n
  | None => text
  end.

(** The base record of [self] as the settings [other] hold it after the
    field copies. *)
Definition reread_record (self other : NMSSettings) : NMSSettings :=
  mkSettings (preset_name other) (string_base self) (reread (string_address self))
    (string_usn self) (string_uid self) (string_lid self) (string_ptk self)
    (reread (string_ts self)) (reread (string_last_ts self))
    (float_pos_x self) (float_pos_y self) (float_pos_z self)
    (float_ori_x self) (float_ori_y self) (float_ori_z self)
    (LastEditedById self) (LastEditedByUsername_value self)
    (original_base_version self) (room_vis_switch other).

Lemma read_back (self other : NMSSettings) (sc : scene)
    (capture_presets : bool) (data : pydict) :
  generate_data self sc capture_presets = Ok data ->
  read_base_record other data = Ok (reread_record self other).
Proof.
  unfold generate_data, reread_record.
  assert (Hfold : forall s : string, reread s = py_str (int_or_text s)).
  { intros s. unfold reread, int_or_text. by destruct (int_of_str s). }
  rewrite !Hfold.
  generalize (int_or_text (string_address self)) (int_or_text (string_ts self))
             (int_or_text (string_last_ts self)).
  intros address ts last_ts Hg.
  destruct (get_all_part_data sc capture_presets) as [objects|];
    cbn [mbind result_bind] in Hg; [|discriminate Hg].
  destruct capture_presets.
  - destruct (get_all_preset_data sc) as [presets|];
      cbn [mbind result_bind] in Hg; [|discriminate Hg].
    injection Hg as <-. reflexivity.
  - injection Hg as <-. reflexivity.
Qed.

(** X8.  Loading a document that [generate_data] returned restores the
    base record: after [generate_from_data] the name, the owner ids, the
    editor fields, the version and the six floats are the ones exported;
    the address and the two timestamps are restored as [str(int(text))]
    when [int] accepts the stored text and unchanged otherwise.  The room
    visibility is 0 and the preset name of the loading settings is not
    touched. *)
Theorem base_record_round_trip (self other : NMSSettings) (pb : PartBuilder)
    (sc sc0 : scene) (capture_presets : bool) (data : pydict)
    (self' : NMSSettings) (pb' : PartBuilder) (sc' : scene) :
  generate_data self sc capture_presets = Ok data ->
  generate_from_data other pb sc0 data = Ok (self', pb', sc') ->
  string_base self' = string_base self /\
  string_uid self' = string_uid self /\ string_lid self' = string_lid self /\
  string_usn self' = string_usn self /\ string_ptk self' = string_ptk self /\
  LastEditedById self' = LastEditedById self /\
  LastEditedByUsername_value self' = LastEditedByUsername_value self /\
  original_base_version self' = original_base_version self /\
  float_pos_x self' = float_pos_x self /\ float_pos_y self' = float_pos_y self /\
  float_pos_z self' = float_pos_z self /\
  float_ori_x self' = float_ori_x self /\ float_ori_y self' = float_ori_y self /\
  float_ori_z self' = float_ori_z self /\
  string_address self' = reread (string_address self) /\
  string_ts self' = reread (string_ts self) /\
  string_last_ts self' = reread (string_last_ts self) /\
  preset_name self' = preset_name other /\
  room_vis_switch self' = 0.
Proof.
  intros Hd Hg. unfold generate_from_data in Hg.
  destruct (new_file other pb sc0) as [[s1 pb1] sc1] eqn:Hnf.
  unfold new_file in Hnf. injection Hnf as <- _ _.
  rewrite (read_back self _ sc capture_presets data Hd) in Hg.
  cbn [mbind result_bind] in Hg.
  destruct (if dict_has data "Objects" then _ else _) as [sc2|];
    cbn [mbind result_bind] in Hg; [|discriminate Hg].
  destruct (if dict_has data "Presets" then _ else _) as [sc3|];
    cbn [mbind result_bind] in Hg; [|discriminate Hg].
  destruct (optimise_control_points sc3) as [sc4|];
    cbn [mbind result_bind] in Hg; [|discriminate Hg].
  injection Hg as <- _ _. repeat split.
Qed.
End BaseRecordFacts.

(** ** snap.py: groups, pairings and what a snap changes *)

Section SnapFacts.
Context `{Collab}.

Lemma find_group_Some (part_id : value) (groups : list (string * snap_group)) (g : string) :
  find_group part_id groups = Some g ->
  exists (s : string) (v : snap_group),
    part_id = PStr s /\ (g, v) ∈ groups /\ s ∈ parts v.
Proof.
  induction groups as [|[group v] rest IH]; [done|]. simpl.
  destruct (id_in part_id (parts v)) eqn:Hin.
  - intros [= <-]. destruct part_id as [| | | |s| |]; try done.
    exists s, v. split; [done|]. split; [apply list_elem_of_here|].
    by apply bool_decide_eq_true_1 in Hin.
  - intros Hf. destruct (IH Hf) as (s & v' & -> & Hv & Hs).
    exists s, v'. split; [done|]. split; [by apply list_elem_of_further|done].
Qed.

(** X9.  [get_snap_pair_options] returns options only for two ids that
    are texts and members of a snap group, and the options are then the
    entry of the pairing catalog under the group of the target and, inside
    it, the group of the source. *)
Theorem get_snap_pair_options_groups (sn : Snapper) (target_item_id source_item_id : value)
    (options : string * string) :
  get_snap_pair_options sn target_item_id source_item_id = Some options ->
  exists (tid sid tg sg : string) (tv sv : snap_group)
         (pairs : list (string * (string * string))),
    target_item_id = PStr tid /\ source_item_id = PStr sid /\
    (tg, tv) ∈ snap_matrix_dictionary sn /\ tid ∈ parts tv /\
    (sg, sv) ∈ snap_matrix_dictionary sn /\ sid ∈ parts sv /\
    get_snap_group_from_part sn target_item_id = Some tg /\
    get_snap_group_from_part sn source_item_id = Some sg /\
    dict_get (snap_pair_dictionary sn) tg = Some pairs /\
    dict_get pairs sg = Some options.
Proof.
  unfold get_snap_pair_options, pairing_entry, get_snap_group_from_part.
  destruct (find_group target_item_id _) as [tg|] eqn:Htg;
    destruct (find_group source_item_id _) as [sg|] eqn:Hsg;
    try (by destruct (_ && _)).
  destruct (_ && _); [done|].
  destruct (dict_get (snap_pair_dictionary sn) tg) as [pairs|] eqn:Hp; [|done].
  intros Ho.
  apply find_group_Some in Htg as (tid & tv & -> & Htv & Htid).
  apply find_group_Some in Hsg as (sid & sv & -> & Hsv & Hsid).
  by exists tid, sid, tg, sg, tv, sv, pairs.
Qed.

End SnapFacts.

Section SnapAgain.
Context `{Collab}.

Lemma valid_or_again (options : list string) (key : option string) (dflt k : string) :
  valid_or options key dflt = k -> valid_or options (Some k) dflt = k.
Proof.
  unfold valid_or. destruct key as [y|].
  - destruct (bool_decide (y ∈ options)) eqn:Hy.
    + intros <-. by rewrite Hy.
    + intros <-. destruct (bool_decide (dflt ∈ options)); reflexivity.
  - intros <-. destruct (bool_decide (dflt ∈ options)); reflexivity.
Qed.

Lemma resolve_target_key_again (ref : snap_reference)
    (datas : option (list (string * snap_point))) (options : list string) (k : string) :
  resolve_target_key ref datas options false false = Some k ->
  resolve_target_key (<["target" := Some k]> ref) datas options false false = Some k.
Proof.
  unfold resolve_target_key. destruct (truthy_points datas); [|done].
  intros [= Hk]. rewrite lookup_insert_eq. cbn [default]. f_equal.
  by apply valid_or_again in Hk.
Qed.

Lemma resolve_source_key_again (ref : snap_reference)
    (source_datas target_datas : option (list (string * snap_point)))
    (target_key : option string) (options : list string) (source_id target_id : value)
    (k : string) (x : option string) :
  resolve_source_key ref source_datas target_datas target_key options source_id target_id
    false false false false = Ok (Some k) ->
  resolve_source_key (<["target" := x]> (<["source" := Some k]> ref))
    source_datas target_datas target_key options source_id target_id
    false false false false = Ok (Some k).
Proof.
  unfold resolve_source_key, choose_source_key, step_source_key.
  destruct (truthy_points source_datas); [|done].
  cbn [orb]. rewrite andb_false_r.
  rewrite lookup_insert_ne by done. rewrite lookup_insert_eq. cbn [default].
  destruct (id_eq source_id target_id).
  - destruct (point_getitem target_datas target_key) as [point|]; [|done].
    cbn [mbind result_bind]. intros [= Hk]. do 2 f_equal. by apply valid_or_again in Hk.
  - cbn [mbind result_bind]. intros [= Hk]. do 2 f_equal. by apply valid_or_again in Hk.
Qed.

Lemma insert_twice_again {A : Type} (m : gmap string A) (a b : string) (x y : A) :
  a <> b ->
  <[b := y]> (<[a := x]> (<[b := y]> (<[a := x]> m))) = <[b := y]> (<[a := x]> m).
Proof.
  intros Hab. apply map_eq. intros i.
  destruct (decide (i = b)) as [->|Hb]; [by rewrite !lookup_insert_eq|].
  rewrite !(lookup_insert_ne _ b i) by done.
  destruct (decide (i = a)) as [->|Ha]; [by rewrite !lookup_insert_eq|].
  rewrite !(lookup_insert_ne _ a i) by done.
  rewrite !(lookup_insert_ne _ b i) by done.
  by rewrite !(lookup_insert_ne _ a i) by done.
Qed.

Lemma group_set_cache (sn : Snapper) (c : gmap string snap_reference) (part_id : value) :
  get_snap_group_from_part (set_snap_cache sn c) part_id = get_snap_group_from_part sn part_id.
Proof. reflexivity. Qed.

Lemma matrices_set_cache (sn : Snapper) (c : gmap string snap_reference)
    (group : option string) :
  get_snap_matrices_from_group (set_snap_cache sn c) group
  = get_snap_matrices_from_group sn group.
Proof. reflexivity. Qed.

Lemma pair_options_set_cache (sn : Snapper) (c : gmap string snap_reference)
    (target_item_id source_item_id : value) :
  get_snap_pair_options (set_snap_cache sn c) target_item_id source_item_id
  = get_snap_pair_options sn target_item_id source_item_id.
Proof. reflexivity. Qed.

(** X11.  Snapping is stable: after a call without steps has returned
    [True] for two objects of different names, the same call on the moved
    source returns [True] again and leaves the source, the cache and the
    selection exactly as the first call left them. *)
Theorem snap_objects_again (sn : Snapper) (source target : Obj) (out : snap_outcome) :
  name source <> name target ->
  snap_objects sn source target false false false false = Ok out ->
  returned out = RBool true ->
  snap_objects (snapper_after out) (source_after out) target false false false false
  = Ok out.
Proof.
  intros Hne Hsnap Hret. unfold snap_objects in Hsnap.
  destruct (has_tag target "PresetID") eqn:Hp.
  { injection Hsnap as <-. discriminate Hret. }
  destruct (has_tag source "SnapID") eqn:Hs; cbn [negb] in Hsnap.
  2:{ injection Hsnap as <-. discriminate Hret. }
  destruct (has_tag target "SnapID") eqn:Ht; cbn [negb] in Hsnap.
  2:{ injection Hsnap as <-. discriminate Hret. }
  destruct (get_tag target "SnapID") as [target_id|] eqn:Htid;
    cbn [mbind result_bind] in Hsnap; [|discriminate Hsnap].
  destruct (get_tag (set_matrix_world source (matrix_world target)) "SnapID")
    as [source_id|] eqn:Hsid;
    cbn [mbind result_bind] in Hsnap; [|discriminate Hsnap].
  destruct (get_snap_pair_options sn target_id source_id) as [options|] eqn:Hopt.
  2:{ injection Hsnap as <-. discriminate Hret. }
  cbn [name matrix_world set_matrix_world] in Hsnap.
  destruct (resolve_target_key _ _ _ false false) as [tk|] eqn:Htk.
  2:{ destruct (resolve_source_key _ _ _ _ _ _ _ _ _ _ _) as [sk|];
        cbn [mbind result_bind] in Hsnap; [|discriminate Hsnap].
      rewrite andb_false_r in Hsnap. injection Hsnap as <-. discriminate Hret. }
  destruct (resolve_source_key _ _ _ _ _ _ _ _ _ _ _) as [[sk|]|] eqn:Hsk;
    cbn [mbind result_bind] in Hsnap; [| |discriminate Hsnap].
  2:{ injection Hsnap as <-. discriminate Hret. }
  destruct (truthy_key (Some sk) && truthy_key (Some tk)) eqn:Htruthy.
  2:{ injection Hsnap as <-. discriminate Hret. }
  destruct (snap_location _ _ _ _) as [target_location|] eqn:Hloc;
    cbn [mbind result_bind] in Hsnap; [|discriminate Hsnap].
  destruct (point_getitem _ (Some sk)) as [source_point|] eqn:Hpoint;
    cbn [mbind result_bind] in Hsnap; [|discriminate Hsnap].
  rewrite (bool_decide_eq_false_2 (name source = name target)) in Hsnap by done.
  cbn [andb] in Hsnap.
  injection Hsnap as <-. cbn [snapper_after source_after].
  unfold snap_objects. rewrite Hp.
  change (has_tag (set_matrix_world (set_matrix_world source (matrix_world target))
                     target_location) "SnapID") with (has_tag source "SnapID").
  rewrite Hs, Ht. cbn [negb]. rewrite Htid.
  change (get_tag (set_matrix_world (set_matrix_world
            (set_matrix_world source (matrix_world target)) target_location)
            (matrix_world target)) "SnapID")
    with (get_tag (set_matrix_world source (matrix_world target)) "SnapID").
  rewrite Hsid. cbn [mbind result_bind].
  rewrite pair_options_set_cache, Hopt.
  rewrite !group_set_cache, !matrices_set_cache.
  cbn [name matrix_world set_matrix_world set_snap_cache snap_cache].
  rewrite !lookup_insert_eq.
  rewrite (lookup_insert_ne _ (name target) (name source)) by (intros Heq; by apply Hne).
  rewrite !lookup_insert_eq. cbn [default from_option id].
  rewrite (resolve_target_key_again _ _ _ _ Htk).
  rewrite (resolve_source_key_again _ _ _ _ _ _ _ _ _ Hsk).
  cbn [mbind result_bind]. rewrite Htruthy, Hpoint, Hloc. cbn [mbind result_bind].
  rewrite (bool_decide_eq_false_2 (name source = name target)) by done.
  cbn [andb]. do 2 f_equal.
  unfold set_snap_cache. cbn [snap_matrix_dictionary snap_pair_dictionary]. f_equal.
  rewrite insert_insert_eq.
  rewrite (insert_twice_again _ "source" "target") by done.
  by rewrite (insert_twice_again _ (name source) (name target)) by done.
Qed.
End SnapAgain.

(** ** parts.py: the part reference, lights and the export of a part *)

Section ReferenceFacts.
Context `{Collab}.

#[local] Instance leb_total : Total (fun a b : string => Is_true (String.leb a b)).
Proof.
  intros a b. destruct (String.leb_total a b) as [Hab|Hba]; [left|right].
  - by rewrite Hab.
  - by rewrite Hba.
Qed.

Lemma get_parts_from_category_elem (pb : PartBuilder) (category_name part : string) :
  part ∈ get_parts_from_category pb category_name <->
  exists info, part_reference pb !! part = Some info /\ category info = category_name.
Proof.
  unfold get_parts_from_category. rewrite merge_sort_Permutation.
  rewrite list_elem_of_fmap. split.
  - intros ([p info] & -> & Hin). apply list_elem_of_filter in Hin as [Hc Hin].
    apply elem_of_map_to_list in Hin. by exists info.
  - intros (info & Hl & Hc). exists (part, info). split; [done|].
    apply list_elem_of_filter. split; [done|]. by apply elem_of_map_to_list.
Qed.

(** X12.  [get_parts_from_category] returns, in ascending order and
    without repetition, exactly the ids that the part reference files under
    the given category. *)
Theorem get_parts_from_category_spec (pb : PartBuilder) (category_name : string) :
  Sorted (fun a b : string => String.leb a b) (get_parts_from_category pb category_name) /\
  NoDup (get_parts_from_category pb category_name) /\
  forall part : string,
    part ∈ get_parts_from_category pb category_name <->
    exists info, part_reference pb !! part = Some info /\ category info = category_name.
Proof.
  split; [|split].
  - unfold get_parts_from_category. apply (Sorted_merge_sort _).
  - unfold get_parts_from_category. rewrite merge_sort_Permutation.
    eapply sublist_NoDup; [apply (NoDup_fst_map_to_list (part_reference pb))|].
    apply fmap_sublist, sublist_filter.
  - apply get_parts_from_category_elem.
Qed.

Lemma add_parts_lookup (category_name model_path part : string) (ps : list string) :
  forall reference : gmap string part_info,
    foldl (fun reference p =>
             <[p := mkPartInfo category_name
                      (path_join (path_join model_path category_name) p)]> reference)
          reference ps !! part
    = if bool_decide (part ∈ ps)
      then Some (mkPartInfo category_name
                   (path_join (path_join model_path category_name) part))
      else reference !! part.
Proof.
  induction ps as [|p ps IH]; intros reference; [done|].
  cbn [foldl]. rewrite IH.
  destruct (decide (part = p)) as [->|Hne].
  - rewrite lookup_insert_eq.
    rewrite (bool_decide_eq_true_2 (p ∈ p :: ps)) by apply list_elem_of_here.
    by destruct (bool_decide (p ∈ ps)).
  - rewrite lookup_insert_ne by done.
    apply (f_equal (fun b : bool => if b then _ else _)).
    apply bool_decide_ext. rewrite elem_of_cons. split; [by right|by intros [?|?]].
Qed.

(** X13.  After [PartBuilder.__init__] over a model folder, a file name
    has an OBJ path exactly when some category lists it; the path is then
    the join of the model folder, the last such category and the name, and
    [get_parts_from_category] files the name under that category only. *)
Theorem get_obj_path_after_init (lights : gmap string (list (string * light_values)))
    (nice : gmap string string) (model_path : string)
    (models : list (string * list string)) (part : string) :
  let pb := PartBuilder_init lights nice model_path models in
  let owner := last (filter (fun cat : string * list string => part ∈ cat.2) models) in
  get_obj_path pb part
  = (fun cat : string * list string => path_join (path_join model_path cat.1) part)
    <$> owner /\
  forall category_name : string,
    part ∈ get_parts_from_category pb category_name <-> fst <$> owner = Some category_name.
Proof.
  intros pb owner.
  assert (Href : part_reference pb !! part
                 = (fun cat : string * list string =>
                      mkPartInfo cat.1 (path_join (path_join model_path cat.1) part))
                   <$> owner).
  { subst pb owner. unfold PartBuilder_init. cbn [part_reference].
    induction models as [|[category_name ps] models IH] using rev_ind; [done|].
    rewrite foldl_app. cbn [foldl]. rewrite add_parts_lookup, IH.
    rewrite filter_app, filter_cons, filter_nil. cbn [snd].
    destruct (decide (part ∈ ps)) as [Hin|Hout].
    - rewrite bool_decide_eq_true_2 by done. by rewrite last_snoc.
    - rewrite bool_decide_eq_false_2 by done. by rewrite app_nil_r. }
  split.
  - unfold get_obj_path. rewrite Href. by destruct owner.
  - intros category_name. rewrite get_parts_from_category_elem, Href.
    destruct owner as [[c ps]|]; cbn.
    + split; [by intros (info & [= <-] & <-)|intros [= <-]; by eexists].
    + split; [by intros (info & ? & _)|done].
Qed.

(** X14.  Once [build_light] has added a lamp, the scene can no longer be
    captured with its presets: the lamp has no ["belongs_to_preset"], and
    [get_all_nms_objects(capture_presets=True)] raises a [KeyError] on
    it. *)
Theorem build_light_blocks_capture (pb : PartBuilder) (i : nat) (sc : scene) (item : Obj)
    (object_id : string) (entry : string * light_values)
    (light_information : list (string * light_values)) :
  sc !! i = Some item ->
  tags item !! "objectID" = Some (PStr object_id) ->
  lights_dictionary pb !! object_id = Some (entry :: light_information) ->
  get_all_nms_objects (build_light pb i sc) true = Err (KeyError "belongs_to_preset").
Proof.
  intros Hi Hid Hl. unfold build_light. rewrite Hi, Hid, Hl.
  destruct (build_lights_from_app (name item) (entry :: light_information) 0 sc)
    as (lamps & _ & -> & Hlamps).
  destruct entry as [key lv].
  destruct (Hlamps 0%nat key lv eq_refl) as (light & Hlight & Hsel).
  assert (Htags : tags light !! "belongs_to_preset" = None).
  { change (tags light) with (tags (set_select light true)).
    rewrite Hsel. by rewrite make_light_tags. }
  unfold get_all_nms_objects.
  rewrite (filterM_raises _ _ light (KeyError "belongs_to_preset")); [done| | |].
  - apply elem_of_app. right. by eapply list_elem_of_lookup_2.
  - unfold get_tag. by rewrite Htags.
  - intros y e'. unfold get_tag. by destruct (tags y !! "belongs_to_preset"); intros [= <-].
Qed.



(** X16.  The path [save_nms_data] writes to always ends with ".json":
    the suffix is appended to a path that does not end with it, and a path
    that does is kept, so that saving under the returned path adds
    nothing. *)
Theorem save_path_json (file_path : string) :
  str_endswith (save_path file_path) ".json" = true /\
  (str_endswith file_path ".json" = true -> save_path file_path = file_path) /\
  (str_endswith file_path ".json" = false -> save_path file_path = file_path +:+ ".json") /\
  save_path (save_path file_path) = save_path file_path.
Proof.
  assert (Happ : forall a b : string, str_endswith (a +:+ b) b = true).
  { intros a b. induction a as [|c a IH].
    - change ("" +:+ b) with b. destruct b as [|c b]; [reflexivity|].
      cbn [str_endswith]. by rewrite String.eqb_refl.
    - change (String c a +:+ b) with (String c (a +:+ b)).
      cbn [str_endswith]. rewrite IH. apply orb_true_r. }
  assert (Hend : str_endswith (save_path file_path) ".json" = true).
  { unfold save_path. destruct (str_endswith file_path ".json") eqn:He; [done|apply Happ]. }
  split; [exact Hend|]. split; [|split].
  - unfold save_path. by intros ->.
  - unfold save_path. by intros ->.
  - unfold save_path at 1. by rewrite Hend.
Qed.
End ReferenceFacts.

(** ** __init__.py: [create_sublists] *)

Section SublistFacts.

Lemma py_range_step_succ (stop step : nat) :
  (0 < stop)%nat -> (0 < step)%nat ->
  py_range_step stop step
  = 0%nat :: ((fun x => step + x)%nat <$> py_range_step (stop - step) step).
Proof.
  intros Hstop Hstep. unfold py_range_step.
  assert (Hq : ((stop + step - 1) / step = S ((stop - step + step - 1) / step))%nat).
  { replace (stop + step - 1)%nat with (stop - 1 + 1 * step)%nat by lia.
    rewrite Nat.div_add by lia.
    destruct (decide (step <= stop)%nat) as [Hle|Hlt].
    - replace (stop - step + step - 1)%nat with (stop - 1)%nat by lia. lia.
    - replace (stop - step + step - 1)%nat with (step - 1)%nat by lia.
      rewrite !Nat.div_small by lia. lia. }
  rewrite Hq. cbn [seq fmap list_fmap]. f_equal.
  rewrite <- fmap_S_seq, <- !list_fmap_compose.
  apply list_fmap_ext. intros i k _. simpl. lia.
Qed.

Lemma chunks_cons (m : nat) (l : list string) :
  (0 < m)%nat -> l <> [] ->
  (fun x => take m (drop x l)) <$> py_range_step (length l) m
  = take m l :: ((fun x => take m (drop x (drop m l))) <$> py_range_step (length (drop m l)) m).
Proof.
  intros Hm Hl. rewrite py_range_step_succ; [|destruct l; [done|simpl; lia]|done].
  rewrite fmap_cons, drop_0, length_drop. f_equal.
  rewrite <- list_fmap_compose. apply list_fmap_ext. intros i k _. simpl.
  by rewrite drop_drop.
Qed.

Lemma chunks_snoc (m : nat) : (0 < m)%nat -> forall (k : nat) (l : list string),
  length l = k -> l <> [] ->
  exists (init : list (list string)) (lst : list string),
    (fun x => take m (drop x l)) <$> py_range_step (length l) m = (init ++ [lst])%list /\
    Forall (fun sub => length sub = m) init /\
    (0 < length lst <= m)%nat /\
    (concat init ++ lst)%list = l.
Proof.
  intros Hm k. induction k as [k IH] using lt_wf_ind. intros l Hk Hl.
  rewrite chunks_cons by done.
  destruct (decide (drop m l = [])) as [Hd|Hd].
  - assert (Hle : (length l <= m)%nat).
    { apply (f_equal length) in Hd. rewrite length_drop in Hd. simpl in Hd. lia. }
    assert (Hz : py_range_step 0 m = []).
    { unfold py_range_step. replace (0 + m - 1)%nat with (m - 1)%nat by lia.
      by rewrite Nat.div_small by lia. }
    rewrite Hd. exists [], l. split.
    + cbn [length]. rewrite Hz. cbn. f_equal. by apply take_ge.
    + split; [constructor|]. split; [|done].
      destruct l; [done|simpl in *; lia].
  - assert (Hlen : (m < length l)%nat).
    { destruct (decide (m < length l)%nat); [done|]. destruct Hd. apply drop_ge. lia. }
    destruct (IH (length (drop m l))) with (l := drop m l)
      as (init & lst & -> & Hall & Hlst & Hcat); [rewrite length_drop; lia|done|done|].
    exists (take m l :: init), lst. split; [done|]. split.
    + constructor; [rewrite length_take; lia|done].
    + split; [done|]. cbn. rewrite <- app_assoc, Hcat. apply take_drop.
Qed.

(** X17.  For a positive [n], [create_sublists] raises an [IndexError]
    on the empty list; on any other list it returns sub-lists of exactly
    [n] elements each whose concatenation is the input followed by fewer
    than [n] empty texts. *)
Theorem create_sublists_spec (input_list : list string) (n : Z) :
  0 < n ->
  (input_list = [] /\ create_sublists input_list n = Err IndexError) \/
  (input_list <> [] /\
   exists (total_list : list (list string)) (blanks : nat),
     create_sublists input_list n = Ok total_list /\
     Forall (fun sub => length sub = Z.to_nat n) total_list /\
     (blanks < Z.to_nat n)%nat /\
     concat total_list = (input_list ++ replicate blanks "")%list).
Proof.
  intros Hn. unfold create_sublists.
  rewrite (proj2 (Z.eqb_neq n 0)) by lia. rewrite (proj2 (Z.ltb_ge n 0)) by lia.
  destruct input_list as [|x input_list].
  { left. split; [done|]. unfold py_range_step. cbn [length].
    replace (0 + Z.to_nat n - 1)%nat with (Z.to_nat n - 1)%nat by lia.
    by rewrite Nat.div_small by lia. }
  right. split; [done|].
  destruct (chunks_snoc (Z.to_nat n) ltac:(lia) _ (x :: input_list) eq_refl ltac:(done))
    as (init & lst & -> & Hall & Hlst & Hcat).
  rewrite last_snoc, removelast_last.
  exists (init ++ [lst ++ replicate (Z.to_nat n - length lst) ""])%list,
         (Z.to_nat n - length lst)%nat.
  split; [done|]. split; [|split].
  - apply Forall_app. split; [done|]. constructor; [|constructor].
    rewrite length_app, length_replicate. lia.
  - lia.
  - rewrite concat_app. cbn. rewrite app_nil_r, app_assoc. by rewrite Hcat.
Qed.
End SublistFacts.

(** * The further properties on concrete scenes *)

Module ConcreteMore.
Import Concrete.
#[local] Open Scope Q_scope.
#[local] Existing Instance Q_host.
#[local] Existing Instance Q_collab.

(** A builder whose light dictionary has two lights for the part
    [LAMP]. *)
Definition first_light : light_values := mkLight "point" (0, 0, 1)%Q [("energy", PInt 2)].

Definition second_light : light_values := mkLight "sun" (1, 0, 0)%Q [].

Definition lamp_lights : list (string * light_values) :=
  [("first", first_light); ("second", second_light)].

Definition lit_builder : PartBuilder :=
  mkPartBuilder {["LAMP" := lamp_lights]} ∅ ∅ ∅ None.

Definition lamp_part : Obj := set_tag (fresh_object "LAMP") "objectID" (PStr "LAMP").

(** A document with one complete entry, and one whose entry has no
    ["UserData"]. *)
Definition one_entry : pyval Q :=
  PDict [("ObjectID", PStr "^CUBE"); ("Timestamp", PInt 7); ("UserData", PInt 3);
         ("Position", PList [PInt 1; PInt 2; PInt 3]);
         ("Up", PList [PInt 0; PInt 1; PInt 0]);
         ("At", PList [PInt 0; PInt 0; PInt 1])].

Definition short_entry : pyval Q :=
  PDict [("ObjectID", PStr "^CUBE"); ("Timestamp", PInt 7)].



(** The float literal [0.07] of the room visibility. *)
Definition Q_literal : @FloatLiteral Q_host := {| float_of_Q := fun q => q |}.

(** A ghosted wall, and a view with one material. *)
Definition wall : Obj := set_tag (fresh_object "Wall") "ObjectID" (PStr "WALL").

Definition view : viewport := mkViewport "MATERIAL" "CYCLES" true [1%Q].


Definition loaded (document : list (string * pyval Q)) : NMSSettings * PartBuilder * scene :=
  match generate_from_data settings builder [] document with
  | Ok r => r
  | Err _ => (settings, builder, [])
  end.

(** A source away from the target, and the outcome of snapping it. *)
Definition snap_source : Obj :=
  set_matrix_world (snap_part "src" "A") (translation (5, 0, 0)%Q).

Definition snap_target : Obj := snap_part "tgt" "B".

Definition snapped : snap_outcome :=
  match snap_objects snapper snap_source snap_target false false false false with
  | Ok out => out
  | Err _ => mkOutcome RNone snapper snap_source None
  end.


End ConcreteMore.

Section MoreChecks.
Import Concrete ConcreteMore.
#[local] Existing Instance Q_host.
#[local] Existing Instance Q_collab.
#[local] Existing Instance Q_literal.




Lemma build_parts_from_dict_incomplete_witness :
  dict_get [("Objects", PList [one_entry; short_entry])] "Objects"
  = Some (PList [one_entry; short_entry]) /\
  short_entry ∈ [one_entry; short_entry] /\
  (forall d, short_entry = PDict d ->
     exists key, key ∈ ["ObjectID"; "Timestamp"; "UserData"; "Position"; "Up"; "At"] /\
                 dict_get d key = None) /\
  is_Ok (build_parts_from_dict builder [] [("Objects", PList [one_entry; short_entry])])
  = false.
Proof.
  assert (H1 : dict_get [("Objects", PList [one_entry; short_entry])] "Objects"
               = Some (PList [one_entry; short_entry])) by reflexivity.
  assert (H2 : short_entry ∈ [one_entry; short_entry])
    by apply list_elem_of_further, list_elem_of_here.
  assert (H3 : forall d, short_entry = PDict d ->
     exists key, key ∈ ["ObjectID"; "Timestamp"; "UserData"; "Position"; "Up"; "At"] /\
                 dict_get d key = None).
  { intros d Hd. injection Hd as <-. exists "UserData". split; [|reflexivity].
    do 2 apply list_elem_of_further. apply list_elem_of_here. }
  split; [exact H1|]. split; [exact H2|]. split; [exact H3|].
  exact (build_parts_from_dict_incomplete builder []
           [("Objects", PList [one_entry; short_entry])] [one_entry; short_entry]
           short_entry H1 H2 H3).
Defined.


(** [toggle_room_visibility_states]: from the normal state to the ghosted
    one, with a ghosted wall in the scene. *)
Lemma toggle_room_visibility_states_witness :
  0 <= room_vis_switch settings <= 3 /\
  let out := toggle_room_visibility ["WALL"] settings view [wall] in
  room_vis_switch out.1.1 = (room_vis_switch settings + 1) mod 4 /\
  shading_type out.1.2
  = (if Z.eqb (room_vis_switch out.1.1) 3 then "MATERIAL" else "SOLID") /\
  use_scene_lights out.1.2 = Z.eqb (room_vis_switch out.1.1) 3 /\
  exists ob',
    out.2 !! 0%nat = Some ob' /\
    select ob' = false /\
    hide_viewport ob' = Z.eqb (room_vis_switch out.1.1) 2.
Proof.
  assert (Hn : 0 <= room_vis_switch settings <= 3) by (split; discriminate).
  split; [exact Hn|].
  destruct (toggle_room_visibility_states ["WALL"] settings view [wall] Hn)
    as (H1 & H2 & _ & H3 & _ & Hob).
  split; [exact H1|]. split; [exact H2|]. split; [exact H3|].
  specialize (Hob 0%nat wall eq_refl).
  assert (Hg : ghosted ["WALL"] wall = true) by evaluate.
  rewrite Hg in Hob. destruct Hob as (ob' & Hl & _ & Hs & Hh & _).
  exists ob'. split; [exact Hl|]. split; [exact Hs|exact Hh].
Defined.


(** [base_record_round_trip] on the document saved from [full_part]. *)
Lemma base_record_round_trip_witness :
  generate_data settings [full_part] true = Ok saved_document /\
  generate_from_data settings builder [] saved_document
  = Ok ((loaded saved_document).1.1, (loaded saved_document).1.2, (loaded saved_document).2) /\
  string_base (loaded saved_document).1.1 = string_base settings /\
  string_address (loaded saved_document).1.1 = reread (string_address settings) /\
  string_last_ts (loaded saved_document).1.1 = reread (string_last_ts settings) /\
  room_vis_switch (loaded saved_document).1.1 = 0.
Proof.
  assert (Hd : generate_data settings [full_part] true = Ok saved_document) by evaluate.
  assert (Hg : generate_from_data settings builder [] saved_document
               = Ok ((loaded saved_document).1.1, (loaded saved_document).1.2,
                     (loaded saved_document).2)) by evaluate.
  split; [exact Hd|]. split; [exact Hg|].
  destruct (base_record_round_trip settings settings builder [full_part] [] true
              saved_document _ _ _ Hd Hg)
    as (Hb & _ & _ & _ & _ & _ & _ & _ & _ & _ & _ & _ & _ & _ & Ha & _ & Hl & _ & Hv).
  split; [exact Hb|]. split; [exact Ha|]. split; [exact Hl|exact Hv].
Defined.

(** [get_snap_pair_options_groups]: the two parts of the group ["G"]. *)
Lemma get_snap_pair_options_groups_witness :
  get_snap_pair_options snapper (PStr "B") (PStr "A") = Some ("p, q", "r, s") /\
  exists (tid sid tg sg : string) (tv sv : snap_group)
         (pairs : list (string * (string * string))),
    PStr "B" = PStr tid :> pyval Q /\ PStr "A" = PStr sid :> pyval Q /\
    (tg, tv) ∈ snap_matrix_dictionary snapper /\ tid ∈ parts tv /\
    (sg, sv) ∈ snap_matrix_dictionary snapper /\ sid ∈ parts sv /\
    get_snap_group_from_part snapper (PStr "B") = Some tg /\
    get_snap_group_from_part snapper (PStr "A") = Some sg /\
    dict_get (snap_pair_dictionary snapper) tg = Some pairs /\
    dict_get pairs sg = Some ("p, q", "r, s").
Proof.
  assert (Ho : get_snap_pair_options snapper (PStr "B") (PStr "A") = Some ("p, q", "r, s"))
    by evaluate.
  split; [exact Ho|].
  exact (get_snap_pair_options_groups snapper (PStr "B") (PStr "A") ("p, q", "r, s") Ho).
Defined.


(** [snap_objects_again]: the same snap, a second time. *)
Lemma snap_objects_again_witness :
  name snap_source <> name snap_target /\
  snap_objects snapper snap_source snap_target false false false false = Ok snapped /\
  returned snapped = RBool true /\
  snap_objects (snapper_after snapped) (source_after snapped) snap_target
    false false false false = Ok snapped.
Proof.
  assert (Hn : name snap_source <> name snap_target).
  { intros Heq. change ("src" = "tgt") in Heq. discriminate Heq. }
  assert (Hs : snap_objects snapper snap_source snap_target false false false false
               = Ok snapped) by evaluate.
  assert (Hr : returned snapped = RBool true) by evaluate.
  split; [exact Hn|]. split; [exact Hs|]. split; [exact Hr|].
  exact (snap_objects_again snapper snap_source snap_target snapped Hn Hs Hr).
Defined.

(** [build_light_blocks_capture]: the part ["LAMP"] and its two lamps. *)
Lemma build_light_blocks_capture_witness :
  [lamp_part] !! 0%nat = Some lamp_part /\
  tags lamp_part !! "objectID" = Some (PStr "LAMP") /\
  lights_dictionary lit_builder !! "LAMP"
  = Some (("first", first_light) :: [("second", second_light)]) /\
  get_all_nms_objects (build_light lit_builder 0 [lamp_part]) true
  = Err (KeyError "belongs_to_preset").
Proof.
  assert (H1 : [lamp_part] !! 0%nat = Some lamp_part) by reflexivity.
  assert (H2 : tags lamp_part !! "objectID" = Some (PStr "LAMP")) by evaluate.
  assert (H3 : lights_dictionary lit_builder !! "LAMP"
               = Some (("first", first_light) :: [("second", second_light)])) by evaluate.
  split; [exact H1|]. split; [exact H2|]. split; [exact H3|].
  exact (build_light_blocks_capture lit_builder 0 [lamp_part] lamp_part "LAMP"
           ("first", first_light) [("second", second_light)] H1 H2 H3).
Defined.


(** [create_sublists_spec]: four names in rows of three. *)
Lemma create_sublists_spec_witness :
  0 < 3 /\
  (["a"; "b"; "c"; "d"] = [] /\ create_sublists ["a"; "b"; "c"; "d"] 3 = Err IndexError \/
   ["a"; "b"; "c"; "d"] <> [] /\
   exists (total_list : list (list string)) (blanks : nat),
     create_sublists ["a"; "b"; "c"; "d"] 3 = Ok total_list /\
     Forall (fun sub => length sub = Z.to_nat 3) total_list /\
     (blanks < Z.to_nat 3)%nat /\
     concat total_list = (["a"; "b"; "c"; "d"] ++ replicate blanks "")%list).
Proof.
  assert (Hn : 0 < 3) by reflexivity.
  split; [exact Hn|].
  exact (create_sublists_spec ["a"; "b"; "c"; "d"] 3 Hn).
Defined.
End MoreChecks.
